(** * Splendor x402 middleware: a shallow embedding and its properties

    The development follows [Core-Blockchain/x402-middleware/index.js]:

    - [JS]: the fragment of JavaScript the middleware relies on (primitive
      values, truthiness, [Number(...)], [Math.floor],
      [Number.prototype.toString(16)], JSON-shaped data and property reads);
    - [Async]: promises that may issue [axios.post] calls, with [try]/[catch];
    - [Middleware]: the class [SplendorX402Middleware], method by method;
    - [Core]: the revenue split of the settlement engine, which lives in the
      node and not in the JavaScript package.

    JavaScript numbers are IEEE-754 binary64 values; they are embedded as the
    primitive floats of Rocq, which are binary64 as well. *)

From Stdlib Require Import ZArith NArith String Ascii List Bool Lia.
From Stdlib Require Import Floats HexString.
Import ListNotations.

Set Warnings "-register-all,-inexact-float".

Local Open Scope list_scope.
Local Open Scope string_scope.

(* ================================================================= *)
(** * The JavaScript fragment *)

Module JS.

(** Strings are sequences of code units below 256 (HTTP header values and
    request paths are of that kind). *)

(** Primitive values: the prices of the pricing table are of this type. *)
Inductive prim : Type :=
| PUndefined
| PNull
| PBool (b : bool)
| PNum (n : float)
| PStr (s : string).

(** JSON-shaped data: what [JSON.parse] and [axios] hand to the middleware,
    and what the middleware sends.  An object is the list of its own
    properties, in [Object.entries] order. *)
Inductive value : Type :=
| VPrim (p : prim)
| VArr (items : list value)
| VObj (fields : list (string * value)).

Coercion VPrim : prim >-> value.

Definition undefined : value := VPrim PUndefined.
Definition null : value := VPrim PNull.
Definition VStr (s : string) : value := VPrim (PStr s).
Definition VBool (b : bool) : value := VPrim (PBool b).
Definition VNum (n : float) : value := VPrim (PNum n).

(** Thrown values. *)
Inductive exn : Type :=
| Error (message : string)
| TypeError (message : string)
| SyntaxError (message : string)
| AxiosError (message : string).

(** ** Truthiness ([ToBoolean]) *)

Definition truthy_prim (p : prim) : bool :=
  match p with
  | PUndefined | PNull => false
  | PBool b => b
  | PNum n => negb (PrimFloat.is_zero n || PrimFloat.is_nan n)
  | PStr s => negb (s =? "")
  end.

Definition truthy (v : value) : bool :=
  match v with
  | VPrim p => truthy_prim p
  | VArr _ | VObj _ => true
  end.

Definition nullish (p : prim) : bool :=
  match p with
  | PUndefined | PNull => true
  | _ => false
  end.

(** ** Property reads

    [v.key] for the property names the middleware reads ([error], [message],
    [result], [isValid], ...), none of which is defined by a built-in
    prototype: on [null] and [undefined] the read throws, on an object it is
    the own property or [undefined], on anything else it is [undefined]. *)

Fixpoint lookup {A : Type} (fields : list (string * A)) (key : string) : option A :=
  match fields with
  | [] => None
  | (k, v) :: rest => if k =? key then Some v else lookup rest key
  end.

Definition nullish_value (v : value) : bool :=
  match v with
  | VPrim p => nullish p
  | VArr _ | VObj _ => false
  end.

(** The value read when the read does not throw. *)
Definition read (v : value) (key : string) : value :=
  match v with
  | VObj fields =>
      match lookup fields key with
      | Some x => x
      | None => undefined
      end
  | _ => undefined
  end.

(** What a read of [null] or [undefined] throws. *)
Definition cannot_read (v : value) (key : string) : exn :=
  TypeError ("Cannot read properties of "
             ++ match v with VPrim PNull => "null" | _ => "undefined" end
             ++ " (reading '" ++ key ++ "')").

Definition get (v : value) (key : string) : exn + value :=
  if nullish_value v then inl (cannot_read v key) else inr (read v key).

(** ** Numbers *)

Definition prec : Z := 53.
Definition emax : Z := 1024.

(** The binary64 value nearest to [p / q] (ties to even), signed. *)
Definition number_of_ratio (neg : bool) (p q : positive) : float :=
  let '(mz, ez, lz) := SFdiv_core_binary prec emax (Zpos p) 0 (Zpos q) 0 in
  SF2Prim (binary_round_aux prec emax neg mz ez lz).

(** The binary64 value nearest to [m * 10^e10], signed. *)
Definition number_of_decimal (neg : bool) (m : N) (e10 : Z) : float :=
  match m with
  | N0 => if neg then (-0)%float else 0%float
  | Npos p =>
      match e10 with
      | Z0 => number_of_ratio neg p 1
      | Zpos e => number_of_ratio neg (p * 10 ^ e) 1
      | Zneg e => number_of_ratio neg p (10 ^ e)
      end
  end.

(** *** [StringToNumber] *)

Definition is_white_space (c : ascii) : bool :=
  let n := N_of_ascii c in
  ((9 <=? n) && (n <=? 13) || (n =? 32) || (n =? 160))%N.

Fixpoint trim_start (s : string) : string :=
  match s with
  | String c rest => if is_white_space c then trim_start rest else s
  | EmptyString => s
  end.

Fixpoint rev_string (s acc : string) : string :=
  match s with
  | String c rest => rev_string rest (String c acc)
  | EmptyString => acc
  end.

Definition trim (s : string) : string :=
  rev_string (trim_start (rev_string (trim_start s) "")) "".

(** The digit a character stands for in the given radix, if any. *)
Definition digit_of (radix : N) (c : ascii) : option N :=
  match HexString.ascii_to_digit c with
  | Some d => if (d <? radix)%N then Some d else None
  | None => None
  end.

(** Reads the longest prefix of digits: their value on top of [acc], how
    many they are, and the rest of the string. *)
Fixpoint read_digits (radix : N) (s : string) (acc : N) (count : nat)
  : N * nat * string :=
  match s with
  | String c rest =>
      match digit_of radix c with
      | Some d => read_digits radix rest (acc * radix + d)%N (S count)
      | None => (acc, count, s)
      end
  | EmptyString => (acc, count, s)
  end.

(** A non-decimal integer literal's digits: at least one, then the end. *)
Definition parse_radix (radix : N) (digits : string) : float :=
  match read_digits radix digits 0%N 0%nat with
  | (_, O, _) => nan
  | (m, _, EmptyString) => number_of_decimal false m 0
  | _ => nan
  end.

(** [ExponentPart], optional: [e] or [E], an optional sign, digits. *)
Definition parse_exponent (s : string) : option Z :=
  match s with
  | EmptyString => Some 0%Z
  | String c rest =>
      if (c =? "e")%char || (c =? "E")%char then
        let '(neg, ds) :=
          match rest with
          | String "-" r => (true, r)
          | String "+" r => (false, r)
          | _ => (false, rest)
          end in
        match read_digits 10 ds 0%N 0%nat with
        | (_, O, _) => None
        | (e, _, EmptyString) => Some (if neg then (- Z.of_N e)%Z else Z.of_N e)
        | _ => None
        end
      else None
  end.

(** [StrUnsignedDecimalLiteral]. *)
Definition parse_unsigned_decimal (neg : bool) (s : string) : float :=
  if s =? "Infinity" then (if neg then neg_infinity else infinity)
  else
    let '(int_value, int_count, after_int) := read_digits 10 s 0%N 0%nat in
    let '(mantissa, frac_count, after_frac) :=
      match after_int with
      | String "." r =>
          let '(m, n, r') := read_digits 10 r int_value 0%nat in (m, Some n, r')
      | _ => (int_value, None, after_int)
      end in
    let digits := (int_count + match frac_count with Some n => n | None => 0 end)%nat in
    match digits with
    | O => nan
    | S _ =>
        match parse_exponent after_frac with
        | Some e =>
            let shift := match frac_count with Some n => Z.of_nat n | None => 0%Z end in
            number_of_decimal neg mantissa (e - shift)
        | None => nan
        end
    end.

Definition StringToNumber (s : string) : float :=
  match trim s with
  | EmptyString => 0%float
  | String "0" (String "x" ds) | String "0" (String "X" ds) => parse_radix 16 ds
  | String "0" (String "o" ds) | String "0" (String "O" ds) => parse_radix 8 ds
  | String "0" (String "b" ds) | String "0" (String "B" ds) => parse_radix 2 ds
  | String "-" r => parse_unsigned_decimal true r
  | String "+" r => parse_unsigned_decimal false r
  | t => parse_unsigned_decimal false t
  end.

(** [Number(p)] on a primitive. *)
Definition Number (p : prim) : float :=
  match p with
  | PUndefined => nan
  | PNull => 0%float
  | PBool true => 1%float
  | PBool false => 0%float
  | PNum n => n
  | PStr s => StringToNumber s
  end.

(** *** [Math.floor] *)

Definition Math_floor (x : float) : float :=
  match Prim2SF x with
  | S754_finite s m e =>
      if (0 <=? e)%Z then x
      else
        let z := Z.shiftr (if s then Zneg m else Zpos m) (- e) in
        SF2Prim (binary_normalize prec emax z 0 false)
  | _ => x
  end.

(** *** [Number.prototype.toString(16)] *)

Definition hex_of_N (n : N) : string :=
  match n with
  | N0 => "0"
  | Npos p => HexString.Raw.of_pos p ""
  end.

(** The hexadecimal digits of [frac / 2^bits], for [0 < frac < 2^bits]:
    [count] digits, trailing zeros dropped. *)
Fixpoint hex_fraction (count : nat) (scaled : N) (acc : string) : string :=
  match count with
  | O => acc
  | S count' =>
      let d := (scaled mod 16)%N in
      let acc' :=
        match acc, d with
        | EmptyString, N0 => EmptyString
        | _, _ => hex_of_N d ++ acc
        end in
      hex_fraction count' (scaled / 16)%N acc'
  end.

Definition hex_of_scaled (m : positive) (e : Z) : string :=
  match e with
  | Z0 => hex_of_N (Npos m)
  | Zpos k => hex_of_N (N.shiftl (Npos m) (Npos k))
  | Zneg k =>
      let whole := N.shiftr (Npos m) (Npos k) in
      let frac := (Npos m - N.shiftl whole (Npos k))%N in
      match frac with
      | N0 => hex_of_N whole
      | _ =>
          let count := ((Npos k + 3) / 4)%N in
          let scaled := N.shiftl frac (4 * count - Npos k) in
          hex_of_N whole ++ "." ++ hex_fraction (N.to_nat count) scaled ""
      end
  end.

Definition Number_toString16 (x : float) : string :=
  match Prim2SF x with
  | S754_nan => "NaN"
  | S754_infinity false => "Infinity"
  | S754_infinity true => "-Infinity"
  | S754_zero _ => "0"
  | S754_finite s m e => (if s then "-" else "") ++ hex_of_scaled m e
  end.

End JS.

(* ================================================================= *)
(** * Promises and [axios.post] *)

Module Async.
Import JS.

(** How an [axios.post] promise settles: resolved with a response, of which
    the middleware reads [data] only, or rejected (transport failure, HTTP
    error status). *)
Inductive outcome : Type :=
| Resolved (data : value)
| Rejected (e : exn).

(** An asynchronous computation: it returns, throws, or posts [body] to
    [url] and goes on with the way the promise settled. *)
Inductive t (A : Type) : Type :=
| Ret (a : A)
| Throw (e : exn)
| Post (url : string) (body : value) (k : outcome -> t A).

Arguments Ret {A} a.
Arguments Throw {A} e.
Arguments Post {A} url body k.

Fixpoint bind {A B : Type} (m : t A) (f : A -> t B) : t B :=
  match m with
  | Ret a => f a
  | Throw e => Throw e
  | Post url body k => Post url body (fun o => bind (k o) f)
  end.

(** [try { m } catch (error) { handler error }] *)
Fixpoint try_catch {A : Type} (m : t A) (handler : exn -> t A) : t A :=
  match m with
  | Ret a => Ret a
  | Throw e => handler e
  | Post url body k => Post url body (fun o => try_catch (k o) handler)
  end.

(** A synchronous step that may throw. *)
Definition lift {A : Type} (r : exn + A) : t A :=
  match r with
  | inl e => Throw e
  | inr a => Ret a
  end.

(** [(await axios.post(url, body)).data] *)
Definition axios_post (url : string) (body : value) : t value :=
  Post url body (fun o =>
    match o with
    | Resolved data => Ret data
    | Rejected e => Throw e
    end).

(** ** Running a computation against a facilitator

    The facilitator settles each call knowing the calls made before it. *)

Abbreviation call := (string * value)%type (only parsing).

Definition facilitator : Type := list call -> call -> outcome.

Fixpoint run {A : Type} (srv : facilitator) (history : list call) (m : t A)
  : list call * (exn + A) :=
  match m with
  | Ret a => ([], inr a)
  | Throw e => ([], inl e)
  | Post url body k =>
      let c := (url, body) in
      let '(calls, r) := run srv (history ++ [c]) (k (srv history c)) in
      (c :: calls, r)
  end.

(** The calls a run makes, and what it ends with. *)
Definition calls {A : Type} (srv : facilitator) (m : t A) : list call :=
  fst (run srv [] m).

Definition result {A : Type} (srv : facilitator) (m : t A) : exn + A :=
  snd (run srv [] m).

End Async.

Declare Scope async_scope.
Delimit Scope async_scope with async.
Notation "x <- m ;; k" := (Async.bind m (fun x => k))
  (at level 61, m at next level, right associativity) : async_scope.
Notation "'ret' a" := (Async.Ret a) (at level 60) : async_scope.

(** Synchronous code that may throw. *)
Definition bind_exn {A B : Type} (r : JS.exn + A) (f : A -> JS.exn + B) : JS.exn + B :=
  match r with
  | inl e => inl e
  | inr a => f a
  end.

Declare Scope exn_scope.
Delimit Scope exn_scope with exn.
Notation "x <- m ;; k" := (bind_exn m (fun x => k))
  (at level 61, m at next level, right associativity) : exn_scope.

(* ================================================================= *)
(** * The class [SplendorX402Middleware] *)

Module Middleware.
Import JS.

(** A pricing table: the own properties of the [pricing] object, pattern and
    price, in [Object.entries] order (insertion order for keys that are not
    array indices, as every key matching a request path is).  Prices are
    primitive values: strings such as ['0.0001'] in the README, or numbers. *)
Definition pricing_table : Type := list (string * prim).

(** The constructor's [options].  [None] is a property that is absent. *)
Record options : Type := {
  opt_rpcUrl : option string;
  opt_facilitatorUrl : option string;
  opt_payTo : option string;
  opt_pricing : option pricing_table;
  opt_defaultPrice : option prim;
  opt_network : option string;
  opt_chainId : option float
}.

(** The fields of an instance ([this]). *)
Record middleware : Type := {
  rpcUrl : string;
  facilitatorUrl : string;
  payTo : string;
  pricing : pricing_table;
  defaultPrice : prim;
  network : string;
  chainId : float
}.

(** [o || fallback] on an optional string. *)
Definition or_string (o : option string) (fallback : string) : string :=
  match o with
  | Some s => if s =? "" then fallback else s
  | None => fallback
  end.

(** [o || fallback] on an optional number. *)
Definition or_number (o : option float) (fallback : float) : float :=
  match o with
  | Some n => if truthy_prim (PNum n) then n else fallback
  | None => fallback
  end.

Definition constructor (o : options) : exn + middleware :=
  let rpcUrl := or_string (opt_rpcUrl o) "http://localhost:80" in
  let facilitatorUrl := or_string (opt_facilitatorUrl o) rpcUrl in
  let pricing := match opt_pricing o with Some p => p | None => [] end in
  let defaultPrice := match opt_defaultPrice o with Some p => p | None => PNull end in
  let network := or_string (opt_network o) "splendor" in
  let chainId := or_number (opt_chainId o) 2691%float in
  match opt_payTo o with
  | Some payTo =>
      if payTo =? "" then inl (Error "payTo address is required")
      else inr {| rpcUrl := rpcUrl; facilitatorUrl := facilitatorUrl;
                  payTo := payTo; pricing := pricing;
                  defaultPrice := defaultPrice; network := network;
                  chainId := chainId |}
  | None => inl (Error "payTo address is required")
  end.

(** [{ ...a, ...b }] on pricing tables: a key of [b] that [a] has keeps its
    place and takes the value of [b]; a new key goes to the end. *)
Fixpoint assign (obj : pricing_table) (key : string) (v : prim) : pricing_table :=
  match obj with
  | [] => [(key, v)]
  | (k, v') :: rest =>
      if k =? key then (k, v) :: rest else (k, v') :: assign rest key v
  end.

Definition spread (a : pricing_table) (b : option pricing_table) : pricing_table :=
  fold_left (fun acc kv => assign acc (fst kv) (snd kv))
            (match b with Some p => p | None => [] end)
            (fold_left (fun acc kv => assign acc (fst kv) (snd kv)) a []).

(** [pattern.includes('*')] *)
Fixpoint includes_star (pattern : string) : bool :=
  match pattern with
  | String c rest => (c =? "*")%char || includes_star rest
  | EmptyString => false
  end.

(** [pattern.replace(/\*/g, '.*')] *)
Fixpoint replace_stars (pattern : string) : string :=
  match pattern with
  | String c rest =>
      if (c =? "*")%char then String "." (String "*" (replace_stars rest))
      else String c (replace_stars rest)
  | EmptyString => EmptyString
  end.

Definition zero_address : string := "0x0000000000000000000000000000000000000000".

(** Convert SPLD amount (string/number) to wei (18 decimals). *)
Definition spldToWei (amountInput : prim) : exn + string :=
  if nullish amountInput then inl (Error "SPLD amount is required for conversion")
  else
    let amount := Number amountInput in
    if PrimFloat.is_nan amount then
      (* the template literal: of the primitives that are not numbers only
         strings and [undefined] convert to NaN, and [undefined] was
         rejected above *)
      inl (Error ("Invalid SPLD amount: "
                  ++ match amountInput with PStr s => s | _ => "NaN" end))
    else
      let wei := Math_floor (amount * 1e18)%float in
      inr ("0x" ++ Number_toString16 wei).

(** A default parameter [error = null]: [undefined] is replaced. *)
Definition default_null (v : value) : value :=
  match v with
  | VPrim PUndefined => null
  | _ => v
  end.

(** An HTTP request, as far as the middleware reads it: [req.path]
    ([request.url] for Fastify) and [headers['x-payment']]. *)
Record request : Type := {
  path : string;
  x_payment : option string
}.

(** What a handler does with a request.  [X-Payment-Response] carries the
    base64 of the JSON text of an object; the object itself is kept here. *)
Inductive reply : Type :=
| Responded (status : Z) (body : value)
| NextFree
| NextPaid (x402 : value) (x_payment_response : value).

(** The JSON-RPC envelope that [verifyPayment], [settlePayment] and
    [getSupported] post. *)
Definition rpc_request (method : string) (params : list value) : value :=
  VObj [("jsonrpc", VStr "2.0");
        ("method", VStr method);
        ("params", VArr params);
        ("id", VNum 1%float)].

(** ** Observations on calls and requirements objects *)

(** The JSON-RPC method and parameters of a call. *)
Definition method_of (c : Async.call) : value := read (snd c) "method".

Definition params_of (c : Async.call) : value := read (snd c) "params".

(** The fields every requirements object is to have, for the price it was
    built from. *)
Definition requirements_ok (this : middleware) (price : prim) (r : value) : Prop :=
  read r "scheme" = VStr "exact" /\
  read r "network" = VStr (network this) /\
  read r "payTo" = VStr (payTo this) /\
  read r "asset" = VStr "0x0000000000000000000000000000000000000000" /\
  read r "maxTimeoutSeconds" = VNum 300%float /\
  exists wei, spldToWei price = inr wei /\ read r "maxAmountRequired" = VStr wei.

(** The shape of the calls of one request: nothing, one verification, or one
    verification and one settlement with the same parameters, all posted to
    the facilitator's URL. *)
Definition calls_in_order (this : middleware) (calls : list Async.call) : Prop :=
  Forall (fun c => fst c = facilitatorUrl this) calls /\
  (calls = [] \/
   (exists cv, calls = [cv] /\ method_of cv = VStr "x402_verify") \/
   (exists cv cs,
      calls = [cv; cs] /\
      method_of cv = VStr "x402_verify" /\
      method_of cs = VStr "x402_settle" /\
      params_of cs = params_of cv)).

Section WithRuntime.

(** [new RegExp(source).test(subject)]; the constructor throws on a source
    that is not a regular expression. *)
Variable RegExp_test : string -> string -> exn + bool.

(** [JSON.parse(Buffer.from(header, 'base64').toString())] *)
Variable decode_payment : string -> exn + value.

(** Simple path matching (supports wildcards). *)
Definition matchPath (path pattern : string) : exn + bool :=
  if includes_star pattern then
    RegExp_test ("^" ++ replace_stars pattern ++ "$") path
  else inr (path =? pattern).

(** The [for ... of Object.entries(pricing)] loop of [getPrice]. *)
Fixpoint first_match (path : string) (entries : pricing_table) : exn + option prim :=
  match entries with
  | [] => inr None
  | (pattern, price) :: rest =>
      (m <- matchPath path pattern ;;
       if m then inr (Some price) else first_match path rest)%exn
  end.

(** Get price for a specific path.  [pricing[path]] is an own property or
    [undefined]: a request path starts with a slash, and no inherited
    property has such a name. *)
Definition getPrice (this : middleware) (path : string) (pricing : pricing_table)
  : exn + prim :=
  let exact := match lookup pricing path with Some p => p | None => PUndefined end in
  if truthy_prim exact then inr exact
  else
    (found <- first_match path pricing ;;
     match found with
     | Some price => inr price
     | None =>
         if negb (nullish (defaultPrice this)) then inr (defaultPrice this)
         else inr PNull
     end)%exn.

(** Verify payment with Splendor blockchain. *)
Definition verifyPayment (this : middleware) (paymentHeader : string)
    (expectedAmount : prim) : Async.t value :=
  Async.try_catch
    (paymentData <- Async.lift (decode_payment paymentHeader) ;;
     maxAmountRequired <- Async.lift (spldToWei expectedAmount) ;;
     let requirements :=
       VObj [("scheme", VStr "exact");
             ("network", VStr (network this));
             ("maxAmountRequired", VStr maxAmountRequired);
             ("resource", VStr "api-access");
             ("description", VStr "API access payment");
             ("mimeType", VStr "application/json");
             ("payTo", VStr (payTo this));
             ("maxTimeoutSeconds", VNum 300%float);
             ("asset", VStr zero_address)] in
     data <- Async.axios_post (facilitatorUrl this)
               (rpc_request "x402_verify" [requirements; paymentData]) ;;
     error <- Async.lift (get data "error") ;;
     if truthy error then
       message <- Async.lift (get error "message") ;;
       ret (VObj [("success", VBool false); ("error", message)])
     else
       result <- Async.lift (get data "result") ;;
       isValid <- Async.lift (get result "isValid") ;;
       invalidReason <- Async.lift (get result "invalidReason") ;;
       payerAddress <- Async.lift (get result "payerAddress") ;;
       ret (VObj [("success", isValid);
                  ("error", invalidReason);
                  ("payerAddress", payerAddress)]))%async
    (fun _ =>
       Async.Ret (VObj [("success", VBool false);
                        ("error", VStr "Verification failed")])).

(** Settle payment on Splendor blockchain. *)
Definition settlePayment (this : middleware) (paymentHeader : string)
    (expectedAmount : prim) : Async.t value :=
  Async.try_catch
    (paymentData <- Async.lift (decode_payment paymentHeader) ;;
     maxAmountRequired <- Async.lift (spldToWei expectedAmount) ;;
     let requirements :=
       VObj [("scheme", VStr "exact");
             ("network", VStr (network this));
             ("maxAmountRequired", VStr maxAmountRequired);
             ("resource", VStr "api-access");
             ("description", VStr "API access payment");
             ("mimeType", VStr "application/json");
             ("payTo", VStr (payTo this));
             ("maxTimeoutSeconds", VNum 300%float);
             ("asset", VStr zero_address)] in
     data <- Async.axios_post (facilitatorUrl this)
               (rpc_request "x402_settle" [requirements; paymentData]) ;;
     error <- Async.lift (get data "error") ;;
     if truthy error then
       message <- Async.lift (get error "message") ;;
       ret (VObj [("success", VBool false); ("error", message)])
     else
       result <- Async.lift (get data "result") ;;
       success <- Async.lift (get result "success") ;;
       error' <- Async.lift (get result "error") ;;
       txHash <- Async.lift (get result "txHash") ;;
       ret (VObj [("success", success);
                  ("error", error');
                  ("txHash", txHash)]))%async
    (fun _ =>
       Async.Ret (VObj [("success", VBool false);
                        ("error", VStr "Settlement failed")])).

(** Send 402 Payment Required response (Express). *)
Definition sendPaymentRequired (this : middleware) (resource : string)
    (price : prim) (error : value) : exn + reply :=
  let error := default_null error in
  (maxAmountRequired <- spldToWei price ;;
   let paymentRequirements :=
     VObj [("x402Version", VNum 1%float);
           ("accepts",
            VArr [VObj [("scheme", VStr "exact");
                        ("network", VStr (network this));
                        ("maxAmountRequired", VStr maxAmountRequired);
                        ("resource", VStr resource);
                        ("description", VStr ("Payment required for " ++ resource));
                        ("mimeType", VStr "application/json");
                        ("payTo", VStr (payTo this));
                        ("maxTimeoutSeconds", VNum 300%float);
                        ("asset", VStr zero_address)]]);
           ("error", error)] in
   inr (Responded 402 paymentRequirements))%exn.

(** Send 402 Payment Required response (Fastify). *)
Definition sendPaymentRequiredFastify (this : middleware) (resource : string)
    (price : prim) (error : value) : exn + reply :=
  let error := default_null error in
  (maxAmountRequired <- spldToWei price ;;
   let paymentRequirements :=
     VObj [("x402Version", VNum 1%float);
           ("accepts",
            VArr [VObj [("scheme", VStr "exact");
                        ("network", VStr (network this));
                        ("maxAmountRequired", VStr maxAmountRequired);
                        ("resource", VStr resource);
                        ("description", VStr ("Payment required for " ++ resource));
                        ("mimeType", VStr "application/json");
                        ("payTo", VStr (payTo this));
                        ("maxTimeoutSeconds", VNum 300%float);
                        ("asset", VStr zero_address)]]);
           ("error", error)] in
   inr (Responded 402 paymentRequirements))%exn.

(** Get supported payment methods. *)
Definition getSupported (this : middleware) : Async.t value :=
  Async.try_catch
    (data <- Async.axios_post (facilitatorUrl this) (rpc_request "x402_supported" []) ;;
     Async.lift (get data "result"))%async
    (fun _ => Async.Ret (VObj [("kinds", VArr [])])).

(** [res.status(500).json(...)] for a path with no price. *)
Definition price_not_configured (details : string) : reply :=
  Responded 500
    (VObj [("error", VStr "x402 price not configured for this resource");
           ("details", VStr details)]).

(** The header is missing when [!paymentHeader] holds. *)
Definition payment_header (req : request) : option string :=
  match x_payment req with
  | Some h => if h =? "" then None else Some h
  | None => None
  end.

(** Express.js middleware: [express(options)] is the handler.  Its run ends
    with the reply it sends or with the call of [next]; what [console.error]
    prints is not kept. *)
Definition express (this : middleware) (options_pricing : option pricing_table)
    (req : request) : Async.t reply :=
  let localPricing := spread (pricing this) options_pricing in
  Async.try_catch
    (price <- Async.lift (getPrice this (path req) localPricing) ;;
     if nullish price then
       ret (price_not_configured
              "Add a pricing rule for this path or supply defaultPrice when initializing the middleware.")
     else if (Number price =? 0)%float then
       ret NextFree (* Free endpoint *)
     else
       match payment_header req with
       | None => Async.lift (sendPaymentRequired this (path req) price undefined)
       | Some paymentHeader =>
           isValid <- verifyPayment this paymentHeader price ;;
           verified <- Async.lift (get isValid "success") ;;
           if negb (truthy verified) then
             reason <- Async.lift (get isValid "error") ;;
             Async.lift (sendPaymentRequired this (path req) price reason)
           else
             (* Payment verified, settle it *)
             settlement <- settlePayment this paymentHeader price ;;
             settled <- Async.lift (get settlement "success") ;;
             if negb (truthy settled) then
               details <- Async.lift (get settlement "error") ;;
               ret (Responded 402
                      (VObj [("error", VStr "Payment settlement failed");
                             ("details", details)]))
             else
               txHash <- Async.lift (get settlement "txHash") ;;
               payer <- Async.lift (get isValid "payerAddress") ;;
               ret (NextPaid
                      (VObj [("paid", VBool true);
                             ("amount", VPrim price);
                             ("txHash", txHash);
                             ("payer", payer)])
                      (VObj [("success", VBool true);
                             ("txHash", txHash);
                             ("networkId", VStr "splendor")]))
       end)%async
    (fun _ =>
       Async.Ret (Responded 500 (VObj [("error", VStr "Payment processing error")]))).

(** Fastify plugin: the [preHandler] hook that [fastify(...)] registers.
    Nothing is caught here. *)
Definition fastify (this : middleware) (options_pricing : option pricing_table)
    (req : request) : Async.t reply :=
  let localPricing := spread (pricing this) options_pricing in
  (price <- Async.lift (getPrice this (path req) localPricing) ;;
   if nullish price then
     ret (price_not_configured
            "Add a pricing rule for this path or supply defaultPrice when registering the plugin.")
   else if (Number price =? 0)%float then
     ret NextFree (* Free endpoint *)
   else
     match payment_header req with
     | None => Async.lift (sendPaymentRequiredFastify this (path req) price undefined)
     | Some paymentHeader =>
         isValid <- verifyPayment this paymentHeader price ;;
         verified <- Async.lift (get isValid "success") ;;
         if negb (truthy verified) then
           reason <- Async.lift (get isValid "error") ;;
           Async.lift (sendPaymentRequiredFastify this (path req) price reason)
         else
           (* Payment verified, settle it *)
           settlement <- settlePayment this paymentHeader price ;;
           settled <- Async.lift (get settlement "success") ;;
           if negb (truthy settled) then
             details <- Async.lift (get settlement "error") ;;
             ret (Responded 402
                    (VObj [("error", VStr "Payment settlement failed");
                           ("details", details)]))
           else
             txHash <- Async.lift (get settlement "txHash") ;;
             payer <- Async.lift (get isValid "payerAddress") ;;
             ret (NextPaid
                    (VObj [("paid", VBool true);
                           ("amount", VPrim price);
                           ("txHash", txHash);
                           ("payer", payer)])
                    (VObj [("success", VBool true);
                           ("txHash", txHash);
                           ("networkId", VStr "splendor")]))
     end)%async.

(** Factory function for easy usage. *)
Definition createSplendorX402Middleware (o : options) : exn + middleware :=
  constructor o.

(** Express middleware factory. *)
Definition splendorX402Express (o : options) : exn + (request -> Async.t reply) :=
  (middleware <- constructor o ;;
   inr (express middleware None))%exn.

(** [{ ...options, ...opts }] on constructor options. *)
Definition merge_options (o opts : options) : options :=
  let pick {A : Type} (f : options -> option A) : option A :=
    match f opts with
    | Some x => Some x
    | None => f o
    end in
  {| opt_rpcUrl := pick opt_rpcUrl;
     opt_facilitatorUrl := pick opt_facilitatorUrl;
     opt_payTo := pick opt_payTo;
     opt_pricing := pick opt_pricing;
     opt_defaultPrice := pick opt_defaultPrice;
     opt_network := pick opt_network;
     opt_chainId := pick opt_chainId |}.

(** Fastify plugin factory. *)
Definition splendorX402Fastify (o opts : options) : exn + (request -> Async.t reply) :=
  (middleware <- constructor (merge_options o opts) ;;
   inr (fastify middleware (opt_pricing opts)))%exn.

End WithRuntime.

End Middleware.

(* ================================================================= *)
(** * The revenue split of the settlement engine *)

Module Core.

Local Open Scope Z_scope.

Inductive DistributionMode : Type :=
| equal
| proportional
| performance.

(** Modelled from the spec: the distribution policy of the settlement engine
    (data model, section 3), which runs inside the node and is not part of
    the JavaScript package.  Amounts and percentages are integers; the
    treasury is enabled when an address is configured. *)
Record DistributionPolicy : Type := {
  validatorPercentage : Z;
  treasuryPercentage : Z;
  treasuryAddress : option string;
  distributionMode : DistributionMode
}.

(** Modelled from the spec: the Revenue Distributor's pure function
    [split(amount, policy)] (section 4.4), absent from the sources at hand:
    the validator share and the treasury share are floors of the percentage
    of the amount, the treasury share is zero without a treasury address,
    and the developer gets what is left. *)
Definition split (amount : Z) (policy : DistributionPolicy) : Z * Z * Z :=
  let validatorShare := amount * validatorPercentage policy / 100 in
  let treasuryShare :=
    match treasuryAddress policy with
    | Some _ => amount * treasuryPercentage policy / 100
    | None => 0
    end in
  let developerNet := amount - validatorShare - treasuryShare in
  (developerNet, validatorShare, treasuryShare).

(** Modelled from the spec: the default policy (validator percentage 0, no
    treasury). *)
Definition default_policy : DistributionPolicy :=
  {| validatorPercentage := 0;
     treasuryPercentage := 0;
     treasuryAddress := None;
     distributionMode := equal |}.

(** Modelled from the spec: a policy the setters accept has percentages
    between 0 and 100 that do not add up to more than 100. *)
Definition policy_ok (policy : DistributionPolicy) : Prop :=
  0 <= validatorPercentage policy <= 100 /\
  0 <= treasuryPercentage policy <= 100 /\
  validatorPercentage policy + treasuryPercentage policy <= 100.

End Core.

(* ================================================================= *)
(** * A concrete runtime and facilitator, to run the middleware on *)

Module Sample.
Import JS Middleware.

(** A matcher for the regular expressions [matchPath] builds from patterns
    whose only special character is the star: an optional [^], literal
    characters, [.*], and a final [$]. *)
Fixpoint star_match (source subject : string) : bool :=
  match source with
  | EmptyString => true
  | String "$" EmptyString => subject =? ""
  | String "." (String "*" rest) =>
      (fix try_from (s : string) : bool :=
         star_match rest s ||
         match s with
         | String _ s' => try_from s'
         | EmptyString => false
         end) subject
  | String c rest =>
      match subject with
      | String d subject' => (c =? d)%char && star_match rest subject'
      | EmptyString => false
      end
  end.

Definition RegExp_test (source subject : string) : exn + bool :=
  match source with
  | String "^" rest => inr (star_match rest subject)
  | _ => inl (SyntaxError "unsupported regular expression")
  end.

(** A sample payment and its header (the base64 text of
    [{"x402Version":1}]); every other header fails to parse. *)
Definition payment : value := VObj [("x402Version", VNum 1%float)].

Definition x_payment_header : string := "eyJ4NDAyVmVyc2lvbiI6MX0=".

Definition decode_payment (header : string) : exn + value :=
  if header =? x_payment_header then inr payment
  else inl (SyntaxError "Unexpected token in JSON").

(** Facilitators.  Each answers by the method of the call. *)
Definition rpc_result (result : value) : Async.outcome :=
  Async.Resolved (VObj [("jsonrpc", VStr "2.0"); ("id", VNum 1%float);
                        ("result", result)]).

Definition rpc_error (message : string) : Async.outcome :=
  Async.Resolved
    (VObj [("jsonrpc", VStr "2.0"); ("id", VNum 1%float);
           ("error", VObj [("code", VNum (-32601)%float);
                           ("message", VStr message)])]).

Definition is_method (name : string) (c : Async.call) : bool :=
  match method_of c with
  | VPrim (PStr m) => m =? name
  | _ => false
  end.

(** Accepts and settles every payment. *)
Definition honest : Async.facilitator := fun _ c =>
  if is_method "x402_verify" c then
    rpc_result (VObj [("isValid", VBool true); ("payerAddress", VStr "0xPayer")])
  else if is_method "x402_settle" c then
    rpc_result (VObj [("success", VBool true); ("txHash", VStr "0xabc")])
  else if is_method "x402_supported" c then
    rpc_result (VObj [("kinds", VArr [VObj [("scheme", VStr "exact");
                                           ("network", VStr "splendor")]])])
  else rpc_error "method not found".

(** Rejects every payment. *)
Definition rejecting : Async.facilitator := fun _ c =>
  if is_method "x402_verify" c then
    rpc_result (VObj [("isValid", VBool false); ("invalidReason", VStr "Expired")])
  else rpc_error "method not found".

(** Accepts every payment and fails to settle it. *)
Definition broke : Async.facilitator := fun _ c =>
  if is_method "x402_verify" c then
    rpc_result (VObj [("isValid", VBool true); ("payerAddress", VStr "0xPayer")])
  else if is_method "x402_settle" c then
    rpc_result (VObj [("success", VBool false); ("error", VStr "InsufficientBalance")])
  else rpc_error "method not found".

(** A node without the x402 API: every method is unknown. *)
Definition no_x402 : Async.facilitator := fun _ _ =>
  rpc_error "the method x402_supported does not exist/is not available".

(** Unreachable. *)
Definition offline : Async.facilitator := fun _ _ =>
  Async.Rejected (AxiosError "connect ECONNREFUSED").

(** [new SplendorX402Middleware()]: no option at all. *)
Definition no_options : options :=
  {| opt_rpcUrl := None;
     opt_facilitatorUrl := None;
     opt_payTo := None;
     opt_pricing := None;
     opt_defaultPrice := None;
     opt_network := None;
     opt_chainId := None |}.

(** The README's configuration. *)
Definition readme_options : options :=
  {| opt_rpcUrl := None;
     opt_facilitatorUrl := None;
     opt_payTo := Some "0xYourWalletAddress";
     opt_pricing := Some [("/api/free", PStr "0");
                          ("/api/premium", PStr "0.0001");
                          ("/api/data/*", PStr "0.01");
                          ("/api/analytics", PStr "0.05")];
     opt_defaultPrice := None;
     opt_network := None;
     opt_chainId := None |}.

Definition readme_middleware : middleware :=
  {| rpcUrl := "http://localhost:80";
     facilitatorUrl := "http://localhost:80";
     payTo := "0xYourWalletAddress";
     pricing := [("/api/free", PStr "0");
                 ("/api/premium", PStr "0.0001");
                 ("/api/data/*", PStr "0.01");
                 ("/api/analytics", PStr "0.05")];
     defaultPrice := PNull;
     network := "splendor";
     chainId := 2691%float |}.

Definition paid_request (p : string) : request :=
  {| path := p; x_payment := Some x_payment_header |}.

(** An engine that refuses a source with an opening parenthesis, as
    [new RegExp] refuses an unterminated group. *)
Fixpoint has_paren (source : string) : bool :=
  match source with
  | String c rest => (c =? "(")%char || has_paren rest
  | EmptyString => false
  end.

Definition picky_RegExp_test (source subject : string) : exn + bool :=
  if has_paren source then
    inl (SyntaxError ("Invalid regular expression: /" ++ source ++ "/: Unterminated group"))
  else RegExp_test source subject.

(** The price [k / 10000] written with four decimals, for [k] below 10000. *)
Definition digit (d : nat) : ascii := ascii_of_nat (48 + d mod 10).

Definition four_decimals (k : nat) : string :=
  String "0" (String "." (String (digit (k / 1000)) (String (digit (k / 100))
    (String (digit (k / 10)) (String (digit k) EmptyString))))).

End Sample.

(* ================================================================= *)
(** * The JavaScript fragment on known values *)

Module JSFacts.
Import JS.

(** [StringToNumber] agrees with the literals of Rocq, which are read by an
    independent, correctly rounding parser. *)
Example StringToNumber_decimal :
  StringToNumber "0.0001" = 0.0001%float /\
  StringToNumber "0.1" = 0.1%float /\
  StringToNumber " 12.5e1 " = 125%float /\
  StringToNumber ".5" = 0.5%float /\
  StringToNumber "5." = 5%float /\
  StringToNumber "123456789012345678901234567890" = 123456789012345678901234567890%float /\
  StringToNumber "1.7976931348623157e308" = 0x1.fffffffffffffp+1023%float /\
  StringToNumber "4.9e-324" = 0x1p-1074%float.
Proof. repeat split; vm_compute; reflexivity. Qed.

Example StringToNumber_special :
  StringToNumber "" = 0%float /\
  StringToNumber "-0" = (-0)%float /\
  StringToNumber "0x1f" = 31%float /\
  StringToNumber "0b101" = 5%float /\
  StringToNumber "-Infinity" = neg_infinity /\
  StringToNumber "1e400" = infinity /\
  StringToNumber "2.4e-324" = 0%float /\
  PrimFloat.is_nan (StringToNumber "abc") = true /\
  PrimFloat.is_nan (StringToNumber "-0x10") = true /\
  PrimFloat.is_nan (StringToNumber "1e") = true /\
  PrimFloat.is_nan (StringToNumber ".") = true /\
  PrimFloat.is_nan (StringToNumber "1 2") = true.
Proof. repeat split; vm_compute; reflexivity. Qed.

Example Math_floor_values :
  Math_floor 0.5%float = 0%float /\
  Math_floor (-0.5)%float = (-1)%float /\
  Math_floor 2.75%float = 2%float /\
  Math_floor (-2.75)%float = (-3)%float /\
  Math_floor (-0)%float = (-0)%float /\
  Math_floor 1e300%float = 1e300%float /\
  Math_floor infinity = infinity.
Proof. repeat split; vm_compute; reflexivity. Qed.

Example Number_toString16_values :
  Number_toString16 255%float = "ff" /\
  Number_toString16 (-255)%float = "-ff" /\
  Number_toString16 0%float = "0" /\
  Number_toString16 (-0)%float = "0" /\
  Number_toString16 1e21%float = "3635c9adc5dea00000" /\
  Number_toString16 255.5%float = "ff.8" /\
  Number_toString16 0.1%float = "0.1999999999999a" /\
  Number_toString16 infinity = "Infinity" /\
  Number_toString16 nan = "NaN".
Proof. repeat split; vm_compute; reflexivity. Qed.

End JSFacts.

(* ================================================================= *)
(** * Properties of the revenue split *)

Module CoreFacts.
Import Core.

Local Open Scope Z_scope.

Lemma share_bounds (amount pct : Z) :
  0 <= amount -> 0 <= pct ->
  0 <= amount * pct / 100 /\ 100 * (amount * pct / 100) <= amount * pct.
Proof.
  intros Ha Hp. split.
  - apply Z.div_pos; nia.
  - apply Z.mul_div_le. lia.
Qed.

(** Under an accepted policy no share is negative: the developer is never
    shorted below zero by the two floors. *)
Lemma split_nonneg (amount : Z) (policy : DistributionPolicy) :
  0 <= amount -> policy_ok policy ->
  let '(developerNet, validatorShare, treasuryShare) := split amount policy in
  0 <= developerNet /\ 0 <= validatorShare /\ 0 <= treasuryShare.
Proof.
  intros Ha (Hv & Ht & Hsum). unfold split.
  destruct (share_bounds amount (validatorPercentage policy)) as [Hv0 Hv1]; try lia.
  destruct (share_bounds amount (treasuryPercentage policy)) as [Ht0 Ht1]; try lia.
  destruct (treasuryAddress policy); repeat split; try lia; nia.
Qed.

(** The spec's worked example: 10% of 1000000. *)
Example split_ten_percent :
  split 1000000 {| validatorPercentage := 10; treasuryPercentage := 0;
                   treasuryAddress := None; distributionMode := equal |}
  = (900000, 100000, 0).
Proof. reflexivity. Qed.

(** The default policy routes the whole amount to the developer. *)
Lemma split_default (amount : Z) : split amount default_policy = (amount, 0, 0).
Proof.
  unfold split, default_policy; cbn [validatorPercentage treasuryAddress].
  rewrite Z.mul_0_r. cbn. f_equal. f_equal. lia.
Qed.

(** C1: for every amount from 1 smallest unit up to [maxAmountRequired] and
    every policy, the three parts of the split add up to the settled amount
    exactly, the developer's part being the amount minus the two floored
    shares (so it takes the remainders of the divisions). *)
Theorem split_exact (policy : DistributionPolicy) (amount maxAmountRequired : Z) :
  1 <= amount <= maxAmountRequired ->
  let '(developerNet, validatorShare, treasuryShare) := split amount policy in
  developerNet + validatorShare + treasuryShare = amount /\
  developerNet = amount - validatorShare - treasuryShare /\
  validatorShare = amount * validatorPercentage policy / 100 /\
  treasuryShare =
    match treasuryAddress policy with
    | Some _ => amount * treasuryPercentage policy / 100
    | None => 0
    end.
Proof.
  intros _. unfold split.
  repeat split; lia.
Qed.

Lemma split_exact_witness :
  let '(developerNet, validatorShare, treasuryShare) :=
    split 1 {| validatorPercentage := 10; treasuryPercentage := 5;
               treasuryAddress := Some "0xTreasury"; distributionMode := equal |} in
  developerNet + validatorShare + treasuryShare = 1 /\
  developerNet = 1 - validatorShare - treasuryShare /\
  validatorShare = 1 * 10 / 100 /\
  treasuryShare = 1 * 5 / 100.
Proof.
  apply (split_exact
           {| validatorPercentage := 10; treasuryPercentage := 5;
              treasuryAddress := Some "0xTreasury"; distributionMode := equal |}
           1 100000000000000).
  lia.
Defined.

End CoreFacts.

(* ================================================================= *)
(** * Running sequenced computations *)

Module AsyncFacts.
Import JS.

(** A run of [m] then [f]: the calls of [m], then those of [f] made with the
    calls of [m] behind it; an exception of [m] ends the run. *)
Lemma run_bind {A B : Type} (srv : Async.facilitator) (m : Async.t A)
    (f : A -> Async.t B) :
  forall history,
    Async.run srv history (Async.bind m f) =
    match Async.run srv history m with
    | (c1, inl e) => (c1, inl e)
    | (c1, inr a) =>
        let '(c2, r) := Async.run srv (history ++ c1) (f a) in ((c1 ++ c2)%list, r)
    end.
Proof.
  induction m as [a | e | url body k IH]; intros history; cbn [Async.bind Async.run].
  - rewrite app_nil_r. destruct (Async.run srv history (f a)); reflexivity.
  - reflexivity.
  - rewrite IH.
    destruct (Async.run srv (history ++ [(url, body)]) (k (srv history (url, body))))
      as [c1 [e | a]]; [reflexivity|].
    rewrite <- app_assoc. cbn [app].
    destruct (Async.run srv (history ++ (url, body) :: c1) (f a)); reflexivity.
Qed.

(** A run of [try { m } catch { handler }]: the handler runs after the calls
    of [m], when [m] throws. *)
Lemma run_try_catch {A : Type} (srv : Async.facilitator) (m : Async.t A)
    (handler : exn -> Async.t A) :
  forall history,
    Async.run srv history (Async.try_catch m handler) =
    match Async.run srv history m with
    | (c1, inr a) => (c1, inr a)
    | (c1, inl e) =>
        let '(c2, r) := Async.run srv (history ++ c1) (handler e) in ((c1 ++ c2)%list, r)
    end.
Proof.
  induction m as [a | e | url body k IH]; intros history;
    cbn [Async.try_catch Async.run].
  - reflexivity.
  - rewrite app_nil_r. destruct (Async.run srv history (handler e)); reflexivity.
  - rewrite IH.
    destruct (Async.run srv (history ++ [(url, body)]) (k (srv history (url, body))))
      as [c1 [e | a]]; [|reflexivity].
    rewrite <- app_assoc. cbn [app].
    destruct (Async.run srv (history ++ (url, body) :: c1) (handler e)); reflexivity.
Qed.

Lemma run_lift {A : Type} (srv : Async.facilitator) (r : exn + A) history :
  Async.run srv history (Async.lift r) = ([], r).
Proof. destruct r; reflexivity. Qed.

Lemma read_nullish (v : value) (key : string) :
  nullish_value v = true -> read v key = undefined.
Proof. destruct v as [[| | | |]| |]; cbn; congruence. Qed.

Lemma truthy_not_nullish (v : value) : truthy v = true -> nullish_value v = false.
Proof. destruct v as [[| | | |]| |]; cbn; congruence. Qed.

End AsyncFacts.

(* ================================================================= *)
(** * Properties of the middleware *)

Module MiddlewareFacts.
Import JS Middleware AsyncFacts.

(** ** The constructor *)

Example constructor_readme :
  constructor Sample.readme_options = inr Sample.readme_middleware.
Proof. reflexivity. Qed.

(** C10: without [payTo] the constructor throws 'payTo address is required';
    with a [payTo] address (a non-empty string: the test is [!this.payTo]) it
    succeeds, and [rpcUrl], [network], [chainId] and [defaultPrice], when
    not given, are 'http://localhost:80', 'splendor', 2691 and null. *)
Theorem constructor_requires_payTo (o : options) :
  (opt_payTo o = None ->
   constructor o = inl (Error "payTo address is required")) /\
  (forall address, opt_payTo o = Some address -> address <> "" ->
   exists this,
     constructor o = inr this /\
     payTo this = address /\
     (opt_rpcUrl o = None -> rpcUrl this = "http://localhost:80") /\
     (opt_network o = None -> network this = "splendor") /\
     (opt_chainId o = None -> chainId this = 2691%float) /\
     (opt_defaultPrice o = None -> defaultPrice this = PNull)).
Proof.
  split.
  - intros H. unfold constructor. rewrite H. reflexivity.
  - intros address H Hne. unfold constructor. rewrite H.
    apply String.eqb_neq in Hne. rewrite Hne.
    eexists. split; [reflexivity|]. cbn.
    repeat split; intros ->; reflexivity.
Qed.

Lemma constructor_requires_payTo_witness :
  constructor Sample.no_options = inl (Error "payTo address is required") /\
  exists this,
    constructor Sample.readme_options = inr this /\
    payTo this = "0xYourWalletAddress" /\
    rpcUrl this = "http://localhost:80" /\
    network this = "splendor" /\
    chainId this = 2691%float /\
    defaultPrice this = PNull.
Proof.
  split.
  - exact (proj1 (constructor_requires_payTo Sample.no_options) eq_refl).
  - destruct (proj2 (constructor_requires_payTo Sample.readme_options)
                "0xYourWalletAddress" eq_refl ltac:(discriminate))
      as (this & Hc & Hp & Hr & Hn & Hi & Hd).
    exists this.
    repeat split; [exact Hc | exact Hp | exact (Hr eq_refl) | exact (Hn eq_refl)
                  | exact (Hi eq_refl) | exact (Hd eq_refl)].
Defined.

(** ** The amount encoder *)

(** C3: the price 0.0001 SPLD, written as the string '0.0001' or as the
    number 0.0001 (the binary64 value nearest to it, in JavaScript as here),
    is encoded as '0x5af3107a4000', which is 100000000000000 smallest
    units. *)
Theorem spldToWei_minimum_price :
  spldToWei (PStr "0.0001") = inr "0x5af3107a4000" /\
  spldToWei (PNum 0.0001%float) = inr "0x5af3107a4000" /\
  HexString.to_Z "0x5af3107a4000" = 100000000000000%Z.
Proof. repeat split; vm_compute; reflexivity. Qed.

(** What the encoder refuses, and what it lets through. *)
Example spldToWei_edge_cases :
  spldToWei PNull = inl (Error "SPLD amount is required for conversion") /\
  spldToWei PUndefined = inl (Error "SPLD amount is required for conversion") /\
  spldToWei (PStr "abc") = inl (Error "Invalid SPLD amount: abc") /\
  spldToWei (PNum nan) = inl (Error "Invalid SPLD amount: NaN") /\
  spldToWei (PStr "0") = inr "0x0" /\
  spldToWei (PStr "1") = inr "0xde0b6b3a7640000" /\
  spldToWei (PStr "-1") = inr "0x-de0b6b3a7640000" /\
  spldToWei (PStr "Infinity") = inr "0xInfinity".
Proof. repeat split; vm_compute; reflexivity. Qed.

(** C4 as stated fails: the encoding of 0.0001 asset units is not
    '0x38d7ea4c68000'. *)
Lemma spldToWei_minimum_price_is_not_38d7 :
  spldToWei (PStr "0.0001") <> inr "0x38d7ea4c68000" /\
  spldToWei (PNum 0.0001%float) <> inr "0x38d7ea4c68000".
Proof. split; vm_compute; discriminate. Qed.

(** C4 (amended): '0x38d7ea4c68000' is 1000000000000000 smallest units, the
    encoding of 0.001 asset units; 0.0001 asset units are encoded as
    '0x5af3107a4000'. *)
Theorem spldToWei_38d7_is_one_thousandth :
  spldToWei (PStr "0.001") = inr "0x38d7ea4c68000" /\
  spldToWei (PNum 0.001%float) = inr "0x38d7ea4c68000" /\
  HexString.to_Z "0x38d7ea4c68000" = 1000000000000000%Z /\
  spldToWei (PStr "0.0001") = inr "0x5af3107a4000".
Proof. repeat split; vm_compute; reflexivity. Qed.

(** ** The facilitator calls of [verifyPayment] and [settlePayment] *)

(** Splits on the innermost scrutinee until the goal has none left. *)
Ltac crunch :=
  repeat (cbn -[spldToWei read cannot_read];
          match goal with
          | |- context [match ?x with _ => _ end] =>
              lazymatch x with
              | context [match _ with _ => _ end] => fail
              | _ => destruct x eqn:?
              end
          end).

(** From [fst (run ...) = [c]] on an unfolded method: the call, and the run
    of what follows it. *)
Ltac the_call Hcalls Hrun :=
  cbn -[read cannot_read] in Hcalls |- *;
  match type of Hcalls with
  | context [Async.run ?s ?hs ?m] =>
      let calls := fresh "calls" in
      let r := fresh "r" in
      destruct (Async.run s hs m) as [calls r] eqn:Hrun;
      cbn in Hcalls; inversion Hcalls; subst; clear Hcalls
  end.

Section Runtime.

Variable RegExp_test : string -> string -> exn + bool.
Variable decode_payment : string -> exn + value.

Local Abbreviation verifyPayment := (Middleware.verifyPayment decode_payment).
Local Abbreviation settlePayment := (Middleware.settlePayment decode_payment).
Local Abbreviation getPrice := (Middleware.getPrice RegExp_test).
Local Abbreviation matchPath := (Middleware.matchPath RegExp_test).
Local Abbreviation first_match := (Middleware.first_match RegExp_test).
Local Abbreviation express := (Middleware.express RegExp_test decode_payment).
Local Abbreviation fastify := (Middleware.fastify RegExp_test decode_payment).

(** What [verifyPayment] returns when it fails before or around the call. *)
Local Abbreviation verification_failed :=
  (VObj [("success", VBool false); ("error", VStr "Verification failed")]).

Local Abbreviation settlement_failed :=
  (VObj [("success", VBool false); ("error", VStr "Settlement failed")]).

(** [verifyPayment] never throws and returns an object.  It makes no call
    when the header does not decode or the amount does not convert, and
    then reports failure; otherwise it makes one call, [x402_verify] on the
    decoded payment with a requirements object that is in order. *)
Lemma verifyPayment_run (srv : Async.facilitator) history this h amount :
  exists calls v,
    Async.run srv history (verifyPayment this h amount) = (calls, inr v) /\
    nullish_value v = false /\
    ((calls = [] /\ v = verification_failed /\
      ((exists e, decode_payment h = inl e) \/ (exists e, spldToWei amount = inl e)))
     \/
     (exists payment r,
        decode_payment h = inr payment /\
        requirements_ok this amount r /\
        calls = [(facilitatorUrl this, rpc_request "x402_verify" [r; payment])])).
Proof.
  unfold Middleware.verifyPayment, Async.axios_post, Async.lift, get.
  destruct (decode_payment h) as [e | payment] eqn:Hd.
  { eexists _, _. split; [reflexivity|]. split; [reflexivity|].
    left. repeat split. left. eauto. }
  destruct (spldToWei amount) as [e | wei] eqn:Hw.
  { eexists _, _. split; [reflexivity|]. split; [reflexivity|].
    left. repeat split. right. eauto. }
  crunch; (eexists _, _; split; [reflexivity|]; split; [reflexivity|]; right;
           eexists _, _; split; [reflexivity|]; split; [|reflexivity];
           unfold requirements_ok; rewrite Hw; repeat split; eauto).
Qed.

Lemma settlePayment_run (srv : Async.facilitator) history this h amount :
  exists calls v,
    Async.run srv history (settlePayment this h amount) = (calls, inr v) /\
    nullish_value v = false /\
    ((calls = [] /\ v = settlement_failed /\
      ((exists e, decode_payment h = inl e) \/ (exists e, spldToWei amount = inl e)))
     \/
     (exists payment r,
        decode_payment h = inr payment /\
        requirements_ok this amount r /\
        calls = [(facilitatorUrl this, rpc_request "x402_settle" [r; payment])])).
Proof.
  unfold Middleware.settlePayment, Async.axios_post, Async.lift, get.
  destruct (decode_payment h) as [e | payment] eqn:Hd.
  { eexists _, _. split; [reflexivity|]. split; [reflexivity|].
    left. repeat split. left. eauto. }
  destruct (spldToWei amount) as [e | wei] eqn:Hw.
  { eexists _, _. split; [reflexivity|]. split; [reflexivity|].
    left. repeat split. right. eauto. }
  crunch; (eexists _, _; split; [reflexivity|]; split; [reflexivity|]; right;
           eexists _, _; split; [reflexivity|]; split; [|reflexivity];
           unfold requirements_ok; rewrite Hw; repeat split; eauto).
Qed.

(** C5: when [verifyPayment] made its call and the response carries a
    result and no RPC-level error, it returns [success], [error] and
    [payerAddress] equal to the result's [isValid], [invalidReason] and
    [payerAddress]. *)
Theorem verifyPayment_result_fields
    (srv : Async.facilitator) history this h amount c data :
  fst (Async.run srv history (verifyPayment this h amount)) = [c] ->
  srv history c = Async.Resolved data ->
  truthy (read data "error") = false ->
  nullish_value (read data "result") = false ->
  method_of c = VStr "x402_verify" /\
  snd (Async.run srv history (verifyPayment this h amount)) =
    inr (VObj [("success", read (read data "result") "isValid");
               ("error", read (read data "result") "invalidReason");
               ("payerAddress", read (read data "result") "payerAddress")]).
Proof.
  intros Hcalls Hsrv Herr Hres.
  assert (Hdata : nullish_value data = false).
  { destruct (nullish_value data) eqn:E; [|reflexivity].
    rewrite (AsyncFacts.read_nullish _ _ E) in Hres. discriminate. }
  unfold Middleware.verifyPayment, Async.axios_post, Async.lift, get in *.
  destruct (decode_payment h) as [|payment]; [discriminate|].
  destruct (spldToWei amount) as [|wei]; [discriminate|].
  the_call Hcalls Hrun.
  split; [reflexivity|].
  rewrite Hsrv in Hrun. cbn -[read cannot_read] in Hrun.
  rewrite Hdata in Hrun. cbn -[read cannot_read] in Hrun.
  rewrite Herr in Hrun. cbn -[read cannot_read] in Hrun.
  rewrite Hres in Hrun. cbn -[read cannot_read] in Hrun.
  inversion Hrun; subst. reflexivity.
Qed.

(** The same for [settlePayment] and the fields [success], [error] and
    [txHash] of the [x402_settle] result. *)
Lemma settlePayment_result_fields
    (srv : Async.facilitator) history this h amount c data :
  fst (Async.run srv history (settlePayment this h amount)) = [c] ->
  srv history c = Async.Resolved data ->
  truthy (read data "error") = false ->
  nullish_value (read data "result") = false ->
  method_of c = VStr "x402_settle" /\
  snd (Async.run srv history (settlePayment this h amount)) =
    inr (VObj [("success", read (read data "result") "success");
               ("error", read (read data "result") "error");
               ("txHash", read (read data "result") "txHash")]).
Proof.
  intros Hcalls Hsrv Herr Hres.
  assert (Hdata : nullish_value data = false).
  { destruct (nullish_value data) eqn:E; [|reflexivity].
    rewrite (AsyncFacts.read_nullish _ _ E) in Hres. discriminate. }
  unfold Middleware.settlePayment, Async.axios_post, Async.lift, get in *.
  destruct (decode_payment h) as [|payment]; [discriminate|].
  destruct (spldToWei amount) as [|wei]; [discriminate|].
  the_call Hcalls Hrun.
  split; [reflexivity|].
  rewrite Hsrv in Hrun. cbn -[read cannot_read] in Hrun.
  rewrite Hdata in Hrun. cbn -[read cannot_read] in Hrun.
  rewrite Herr in Hrun. cbn -[read cannot_read] in Hrun.
  rewrite Hres in Hrun. cbn -[read cannot_read] in Hrun.
  inversion Hrun; subst. reflexivity.
Qed.

(** ** The Express handler on a request that carries a payment header *)

Local Abbreviation processing_error :=
  (Responded 500 (VObj [("error", VStr "Payment processing error")])).

(** The handler when [verifyPayment] reports failure: no further call, and
    the reply of [sendPaymentRequired] (500 if that throws). *)
Lemma express_verification_failed
    (srv : Async.facilitator) this op req price h cv isValid :
  getPrice this (path req) (spread (pricing this) op) = inr price ->
  nullish price = false ->
  (Number price =? 0)%float = false ->
  payment_header req = Some h ->
  Async.run srv [] (verifyPayment this h price) = (cv, inr isValid) ->
  nullish_value isValid = false ->
  truthy (read isValid "success") = false ->
  Async.run srv [] (express this op req) =
    (cv, match sendPaymentRequired this (path req) price (read isValid "error") with
         | inr rep => inr rep
         | inl _ => inr processing_error
         end).
Proof.
  intros Hprice Hnn Hnz Hh Hv Hobj Hf.
  unfold Middleware.express.
  rewrite run_try_catch, run_bind, run_lift, Hprice.
  cbn [app]. rewrite Hnn, Hnz, Hh.
  rewrite run_bind, Hv.
  unfold get. rewrite Hobj.
  cbn [Async.lift Async.bind]. rewrite Hf. cbn [negb].
  cbn [Async.bind].
  rewrite run_lift.
  destruct (sendPaymentRequired this (path req) price (read isValid "error"));
    cbn [Async.run app]; rewrite ?app_nil_r; reflexivity.
Qed.

(** The handler when [verifyPayment] reports success: [settlePayment] runs
    next, and its verdict decides between access and 402. *)
Lemma express_verification_passed
    (srv : Async.facilitator) this op req price h cv isValid cs settlement :
  getPrice this (path req) (spread (pricing this) op) = inr price ->
  nullish price = false ->
  (Number price =? 0)%float = false ->
  payment_header req = Some h ->
  Async.run srv [] (verifyPayment this h price) = (cv, inr isValid) ->
  nullish_value isValid = false ->
  truthy (read isValid "success") = true ->
  Async.run srv cv (settlePayment this h price) = (cs, inr settlement) ->
  nullish_value settlement = false ->
  Async.run srv [] (express this op req) =
    ((cv ++ cs)%list,
     inr (if truthy (read settlement "success") then
            NextPaid
              (VObj [("paid", VBool true);
                     ("amount", VPrim price);
                     ("txHash", read settlement "txHash");
                     ("payer", read isValid "payerAddress")])
              (VObj [("success", VBool true);
                     ("txHash", read settlement "txHash");
                     ("networkId", VStr "splendor")])
          else
            Responded 402
              (VObj [("error", VStr "Payment settlement failed");
                     ("details", read settlement "error")]))).
Proof.
  intros Hprice Hnn Hnz Hh Hv Hobj Ht Hs Hsobj.
  unfold Middleware.express.
  rewrite run_try_catch, run_bind, run_lift, Hprice.
  cbn [app]. rewrite Hnn, Hnz, Hh.
  rewrite run_bind, Hv.
  unfold get. rewrite Hobj.
  cbn [Async.lift Async.bind]. rewrite Ht. cbn [negb app].
  rewrite run_bind, Hs. rewrite Hsobj.
  cbn [Async.lift Async.bind].
  destruct (truthy (read settlement "success")); cbn [negb Async.bind Async.run];
    rewrite ?app_nil_r; reflexivity.
Qed.

(** A price that is neither nullish nor NaN converts. *)
Lemma spldToWei_number (price : prim) :
  nullish price = false -> PrimFloat.is_nan (Number price) = false ->
  exists wei, spldToWei price = inr wei.
Proof.
  intros Hn Hnan. unfold spldToWei. rewrite Hn, Hnan. eauto.
Qed.

(** The 402 challenge for a price that converts. *)
Lemma sendPaymentRequired_ok this resource price error wei :
  spldToWei price = inr wei ->
  exists r,
    requirements_ok this price r /\
    read r "resource" = VStr resource /\
    sendPaymentRequired this resource price error =
      inr (Responded 402
             (VObj [("x402Version", VNum 1%float);
                    ("accepts", VArr [r]);
                    ("error", default_null error)])).
Proof.
  intros Hw. unfold sendPaymentRequired. rewrite Hw. cbn [bind_exn].
  eexists. split; [|split; [|reflexivity]].
  - unfold requirements_ok. rewrite Hw. repeat split; eauto.
  - reflexivity.
Qed.

(** A price that is not a number is not a price: with a payment header the
    handler makes no call, [sendPaymentRequired] throws on the conversion,
    and the reply is 500. *)
Lemma express_price_not_a_number
    (srv : Async.facilitator) this op req price h :
  getPrice this (path req) (spread (pricing this) op) = inr price ->
  nullish price = false ->
  PrimFloat.is_nan (Number price) = true ->
  (Number price =? 0)%float = false ->
  payment_header req = Some h ->
  Async.run srv [] (express this op req) = ([], inr processing_error).
Proof.
  intros Hprice Hnn Hnan Hnz Hh.
  assert (Hw : exists e, spldToWei price = inl e).
  { unfold spldToWei. rewrite Hnn, Hnan. eauto. }
  destruct Hw as [e Hw].
  destruct (verifyPayment_run srv [] this h price)
    as (cv & isValid & Hv & Hobj & [(-> & -> & _) | (payment & r & _ & Hr & _)]).
  - rewrite (express_verification_failed srv this op req price h [] _
               Hprice Hnn Hnz Hh Hv Hobj eq_refl).
    unfold sendPaymentRequired. rewrite Hw. reflexivity.
  - destruct Hr as (_ & _ & _ & _ & _ & wei & Hwei & _). congruence.
Qed.

(** C2: on a request to a priced endpoint (the resolved price is a number
    other than 0) that carries an X-Payment header, the calls of the Express
    handler are those of [verifyPayment], all [x402_verify], followed by
    [x402_settle] calls; a header that decodes to a payment is submitted to
    [x402_verify] first; [x402_settle] is called, on that payment, only when
    verification reported valid; and when verification fails nothing is
    settled and the reply is 402 with the payment requirements and the
    reason. *)
Theorem express_verifies_before_settling
    (srv : Async.facilitator) this op req price h :
  getPrice this (path req) (spread (pricing this) op) = inr price ->
  nullish price = false ->
  PrimFloat.is_nan (Number price) = false ->
  (Number price =? 0)%float = false ->
  payment_header req = Some h ->
  exists cv isValid cs,
    Async.run srv [] (verifyPayment this h price) = (cv, inr isValid) /\
    fst (Async.run srv [] (express this op req)) = (cv ++ cs)%list /\
    Forall (fun c => method_of c = VStr "x402_verify") cv /\
    Forall (fun c => method_of c = VStr "x402_settle") cs /\
    (forall payment, decode_payment h = inr payment ->
       exists r, cv = [(facilitatorUrl this, rpc_request "x402_verify" [r; payment])]) /\
    (truthy (read isValid "success") = true ->
       exists payment r,
         decode_payment h = inr payment /\
         cs = [(facilitatorUrl this, rpc_request "x402_settle" [r; payment])]) /\
    (truthy (read isValid "success") = false ->
       cs = [] /\
       exists r,
         requirements_ok this price r /\
         read r "resource" = VStr (path req) /\
         snd (Async.run srv [] (express this op req)) =
           inr (Responded 402
                  (VObj [("x402Version", VNum 1%float);
                         ("accepts", VArr [r]);
                         ("error", default_null (read isValid "error"))]))).
Proof.
  intros Hprice Hnn Hnan Hnz Hh.
  destruct (spldToWei_number price Hnn Hnan) as [wei Hw].
  destruct (verifyPayment_run srv [] this h price)
    as (cv & isValid & Hv & Hobj & Hshape).
  assert (Hcv : Forall (fun c => method_of c = VStr "x402_verify") cv).
  { destruct Hshape as [(-> & _) | (payment & r & _ & _ & ->)]; repeat constructor. }
  assert (Hdec : forall payment, decode_payment h = inr payment ->
            exists r, cv = [(facilitatorUrl this, rpc_request "x402_verify" [r; payment])]).
  { intros payment Hd.
    destruct Hshape as [(_ & _ & [[e He] | [e He]]) | (payment' & r & Hd' & _ & ->)];
      try congruence.
    exists r. congruence. }
  destruct (truthy (read isValid "success")) eqn:Hs.
  - (* verified *)
    destruct Hshape as [(_ & -> & _) | (payment & r & Hd & _ & Hcalls)];
      [discriminate Hs|].
    destruct (settlePayment_run srv cv this h price)
      as (cs & settlement & Hrun & Hsobj & Hsshape).
    destruct Hsshape as [(_ & _ & [[e He] | [e He]]) | (payment' & r' & Hd' & _ & Hcs)];
      try congruence.
    exists cv, isValid, cs.
    rewrite (express_verification_passed srv this op req price h cv isValid cs settlement)
      by assumption.
    repeat split; try assumption.
    + subst cs. repeat constructor.
    + intros _. exists payment', r'. split; assumption.
    + congruence.
    + congruence.
  - exists cv, isValid, [].
    rewrite (express_verification_failed srv this op req price h cv isValid)
      by assumption.
    destruct (sendPaymentRequired_ok this (path req) price (read isValid "error") wei Hw)
      as (r & Hr & Hres & Hsend).
    rewrite Hsend. cbn [fst snd]. rewrite app_nil_r.
    repeat split; try assumption; try constructor; try congruence.
    exists r. split; [exact Hr | split; [exact Hres | reflexivity]].
Qed.
(** ** Settlement failures *)

(** C6: when [settlePayment] made its call and the response carries a result
    and no RPC-level error, it returns [success], [error] and [txHash] taken
    from the result; and whenever the [success] that [settlePayment] returns
    to the Express handler is falsy, the handler replies 402 'Payment
    settlement failed' with the reason and does not call [next]. *)
Theorem settlement_failure_denies_access :
  (forall (srv : Async.facilitator) history this h amount c data,
     fst (Async.run srv history (settlePayment this h amount)) = [c] ->
     srv history c = Async.Resolved data ->
     truthy (read data "error") = false ->
     nullish_value (read data "result") = false ->
     method_of c = VStr "x402_settle" /\
     snd (Async.run srv history (settlePayment this h amount)) =
       inr (VObj [("success", read (read data "result") "success");
                  ("error", read (read data "result") "error");
                  ("txHash", read (read data "result") "txHash")])) /\
  (forall (srv : Async.facilitator) this op req price h cv isValid cs settlement,
     getPrice this (path req) (spread (pricing this) op) = inr price ->
     nullish price = false ->
     (Number price =? 0)%float = false ->
     payment_header req = Some h ->
     Async.run srv [] (verifyPayment this h price) = (cv, inr isValid) ->
     truthy (read isValid "success") = true ->
     Async.run srv cv (settlePayment this h price) = (cs, inr settlement) ->
     truthy (read settlement "success") = false ->
     Async.run srv [] (express this op req) =
       ((cv ++ cs)%list,
        inr (Responded 402
               (VObj [("error", VStr "Payment settlement failed");
                      ("details", read settlement "error")])))).
Proof.
  split.
  - intros. apply settlePayment_result_fields; assumption.
  - intros srv this op req price h cv isValid cs settlement
           Hprice Hnn Hnz Hh Hv Ht Hs Hf.
    assert (Hobj : nullish_value isValid = false).
    { destruct (verifyPayment_run srv [] this h price)
        as (cv' & v & Hv' & Hobj & _). congruence. }
    assert (Hsobj : nullish_value settlement = false).
    { destruct (settlePayment_run srv cv this h price)
        as (cs' & v & Hs' & Hsobj & _). congruence. }
    rewrite (express_verification_passed
               srv this op req price h cv isValid cs settlement) by assumption.
    rewrite Hf. reflexivity.
Qed.

(** ** Price resolution *)

(** The loop over the entries when none matches. *)
Lemma first_match_none path entries :
  Forall (fun e => matchPath path (fst e) = inr false) entries ->
  first_match path entries = inr None.
Proof.
  induction 1 as [| [pattern price] rest Hm _ IH]; cbn [Middleware.first_match].
  - reflexivity.
  - cbn [fst] in Hm. rewrite Hm. cbn [bind_exn]. exact IH.
Qed.

(** The loop stops at the first entry that matches. *)
Lemma first_match_first path before pattern price after :
  Forall (fun e => matchPath path (fst e) = inr false) before ->
  matchPath path pattern = inr true ->
  first_match path (before ++ (pattern, price) :: after)%list = inr (Some price).
Proof.
  intros Hb Hm.
  induction Hb as [| [pattern' price'] rest Hm' _ IH]; cbn [Middleware.first_match app].
  - rewrite Hm. reflexivity.
  - cbn [fst] in Hm'. rewrite Hm'. cbn [bind_exn]. exact IH.
Qed.

(** C8: [getPrice] returns the exact-match entry when there is one and it
    is truthy; otherwise the price of the first entry, in the order of the
    table, whose pattern matches the path; otherwise, when no entry matches,
    [defaultPrice] if that is neither null nor undefined, else null.  When
    the resolved price is null (or undefined) the Express handler replies 500
    'x402 price not configured for this resource'; when its numeric value is
    0 the handler calls [next] and makes no call to the facilitator. *)
Theorem price_resolution this :
  (forall path pricing p,
     lookup pricing path = Some p -> truthy_prim p = true ->
     getPrice this path pricing = inr p) /\
  (forall path pricing before pattern price after,
     truthy_prim (match lookup pricing path with Some p => p | None => PUndefined end)
       = false ->
     pricing = (before ++ (pattern, price) :: after)%list ->
     Forall (fun e => matchPath path (fst e) = inr false) before ->
     matchPath path pattern = inr true ->
     getPrice this path pricing = inr price) /\
  (forall path pricing,
     truthy_prim (match lookup pricing path with Some p => p | None => PUndefined end)
       = false ->
     Forall (fun e => matchPath path (fst e) = inr false) pricing ->
     getPrice this path pricing =
       inr (if nullish (defaultPrice this) then PNull else defaultPrice this)) /\
  (forall (srv : Async.facilitator) op req price,
     getPrice this (path req) (spread (pricing this) op) = inr price ->
     nullish price = true ->
     Async.run srv [] (express this op req) =
       ([], inr (Responded 500
                   (VObj [("error", VStr "x402 price not configured for this resource");
                          ("details", VStr "Add a pricing rule for this path or supply defaultPrice when initializing the middleware.")])))) /\
  (forall (srv : Async.facilitator) op req price,
     getPrice this (path req) (spread (pricing this) op) = inr price ->
     nullish price = false ->
     (Number price =? 0)%float = true ->
     Async.run srv [] (express this op req) = ([], inr NextFree)).
Proof.
  repeat apply conj.
  - intros path pricing p Hl Ht. unfold Middleware.getPrice. rewrite Hl, Ht. reflexivity.
  - intros path pricing before pattern price after Hf -> Hb Hm.
    unfold Middleware.getPrice. rewrite Hf.
    rewrite (first_match_first path before pattern price after Hb Hm). reflexivity.
  - intros path pricing Hf Hall.
    unfold Middleware.getPrice. rewrite Hf.
    rewrite (first_match_none path pricing Hall). cbn [bind_exn].
    destruct (nullish (defaultPrice this)); reflexivity.
  - intros srv op req price Hprice Hn. unfold Middleware.express.
    rewrite run_try_catch, run_bind, run_lift, Hprice.
    cbn [app]. rewrite Hn. reflexivity.
  - intros srv op req price Hprice Hnn Hz. unfold Middleware.express.
    rewrite run_try_catch, run_bind, run_lift, Hprice.
    cbn [app]. rewrite Hnn, Hz. reflexivity.
Qed.


(** ** The Fastify hook on a request that carries a payment header *)

(** The hook when [verifyPayment] reports failure; an exception of
    [sendPaymentRequiredFastify] propagates. *)
Lemma fastify_verification_failed
    (srv : Async.facilitator) this op req price h cv isValid :
  getPrice this (path req) (spread (pricing this) op) = inr price ->
  nullish price = false ->
  (Number price =? 0)%float = false ->
  payment_header req = Some h ->
  Async.run srv [] (verifyPayment this h price) = (cv, inr isValid) ->
  nullish_value isValid = false ->
  truthy (read isValid "success") = false ->
  Async.run srv [] (fastify this op req) =
    (cv, sendPaymentRequiredFastify this (path req) price (read isValid "error")).
Proof.
  intros Hprice Hnn Hnz Hh Hv Hobj Hf.
  unfold Middleware.fastify.
  rewrite run_bind, run_lift, Hprice.
  cbn [app]. rewrite Hnn, Hnz, Hh.
  rewrite run_bind, Hv.
  unfold get. rewrite Hobj.
  cbn [Async.lift Async.bind]. rewrite Hf. cbn [negb].
  cbn [Async.bind].
  rewrite run_lift, app_nil_r. reflexivity.
Qed.

(** The hook when [verifyPayment] reports success. *)
Lemma fastify_verification_passed
    (srv : Async.facilitator) this op req price h cv isValid cs settlement :
  getPrice this (path req) (spread (pricing this) op) = inr price ->
  nullish price = false ->
  (Number price =? 0)%float = false ->
  payment_header req = Some h ->
  Async.run srv [] (verifyPayment this h price) = (cv, inr isValid) ->
  nullish_value isValid = false ->
  truthy (read isValid "success") = true ->
  Async.run srv cv (settlePayment this h price) = (cs, inr settlement) ->
  nullish_value settlement = false ->
  Async.run srv [] (fastify this op req) =
    ((cv ++ cs)%list,
     inr (if truthy (read settlement "success") then
            NextPaid
              (VObj [("paid", VBool true);
                     ("amount", VPrim price);
                     ("txHash", read settlement "txHash");
                     ("payer", read isValid "payerAddress")])
              (VObj [("success", VBool true);
                     ("txHash", read settlement "txHash");
                     ("networkId", VStr "splendor")])
          else
            Responded 402
              (VObj [("error", VStr "Payment settlement failed");
                     ("details", read settlement "error")]))).
Proof.
  intros Hprice Hnn Hnz Hh Hv Hobj Ht Hs Hsobj.
  unfold Middleware.fastify.
  rewrite run_bind, run_lift, Hprice.
  cbn [app]. rewrite Hnn, Hnz, Hh.
  rewrite run_bind, Hv.
  unfold get. rewrite Hobj.
  cbn [Async.lift Async.bind]. rewrite Ht. cbn [negb app].
  rewrite run_bind, Hs. rewrite Hsobj.
  cbn [Async.lift Async.bind].
  destruct (truthy (read settlement "success")); cbn [negb Async.bind Async.run];
    rewrite ?app_nil_r; reflexivity.
Qed.

(** ** Requirements objects *)

(** Every call of [verifyPayment] carries a requirements object in order. *)
Lemma verifyPayment_calls (srv : Async.facilitator) history this h price c :
  In c (fst (Async.run srv history (verifyPayment this h price))) ->
  exists r payment,
    snd c = rpc_request "x402_verify" [r; payment] /\ requirements_ok this price r.
Proof.
  destruct (verifyPayment_run srv history this h price)
    as (calls & v & -> & _ & [(-> & _) | (payment & r & _ & Hr & ->)]); cbn [fst In].
  - tauto.
  - intros [<- | []]. exists r, payment. split; [reflexivity | exact Hr].
Qed.

(** Every call of [settlePayment] carries a requirements object in order. *)
Lemma settlePayment_calls (srv : Async.facilitator) history this h price c :
  In c (fst (Async.run srv history (settlePayment this h price))) ->
  exists r payment,
    snd c = rpc_request "x402_settle" [r; payment] /\ requirements_ok this price r.
Proof.
  destruct (settlePayment_run srv history this h price)
    as (calls & v & -> & _ & [(-> & _) | (payment & r & _ & Hr & ->)]); cbn [fst In].
  - tauto.
  - intros [<- | []]. exists r, payment. split; [reflexivity | exact Hr].
Qed.

(** Every 402 challenge accepts one requirements object, in order. *)
Lemma sendPaymentRequired_challenge this resource price error rep :
  sendPaymentRequired this resource price error = inr rep ->
  exists r,
    rep = Responded 402
            (VObj [("x402Version", VNum 1%float);
                   ("accepts", VArr [r]);
                   ("error", default_null error)]) /\
    requirements_ok this price r.
Proof.
  intros H. destruct (spldToWei price) as [e | wei] eqn:Hw.
  - unfold sendPaymentRequired in H. rewrite Hw in H. discriminate.
  - destruct (sendPaymentRequired_ok this resource price error wei Hw)
      as (r & Hr & _ & Hsend).
    exists r. split; [congruence | exact Hr].
Qed.

Lemma sendPaymentRequiredFastify_challenge this resource price error rep :
  sendPaymentRequiredFastify this resource price error = inr rep ->
  exists r,
    rep = Responded 402
            (VObj [("x402Version", VNum 1%float);
                   ("accepts", VArr [r]);
                   ("error", default_null error)]) /\
    requirements_ok this price r.
Proof.
  exact (sendPaymentRequired_challenge this resource price error rep).
Qed.

(** What a handler's run looks like, whichever framework it is for. *)
Ltac handler_cases srv this op req :=
  let Hprice := fresh "Hprice" in
  let Hnn := fresh "Hnn" in
  let Hnz := fresh "Hnz" in
  let Hh := fresh "Hh" in
  destruct (getPrice this (path req) (spread (pricing this) op)) as [? | ?price] eqn:Hprice;
  [ | destruct (nullish price) eqn:Hnn;
      [ | destruct (Number price =? 0)%float eqn:Hnz;
          [ | destruct (payment_header req) as [?h |] eqn:Hh ] ] ].

(** Every call made while the Express handler runs carries a requirements
    object in order for the resolved price. *)
Lemma express_calls (srv : Async.facilitator) this op req c :
  In c (fst (Async.run srv [] (express this op req))) ->
  exists price r payment,
    getPrice this (path req) (spread (pricing this) op) = inr price /\
    params_of c = VArr [r; payment] /\
    requirements_ok this price r.
Proof.
  handler_cases srv this op req.
  1-3, 5: unfold Middleware.express;
          rewrite run_try_catch, run_bind, run_lift, Hprice; cbn [app];
          rewrite ?Hnn, ?Hnz, ?Hh, ?run_lift; cbn;
          try (destruct (sendPaymentRequired _ _ _ _); cbn); tauto.
  destruct (verifyPayment_run srv [] this h price)
    as (cv & isValid & Hv & Hobj & _).
  pose proof (verifyPayment_calls srv [] this h price c) as Hcv.
  rewrite Hv in Hcv. cbn [fst] in Hcv.
  destruct (truthy (read isValid "success")) eqn:Hs.
  - destruct (settlePayment_run srv cv this h price)
      as (cs & settlement & Hrun & Hsobj & _).
    pose proof (settlePayment_calls srv cv this h price c) as Hcs.
    rewrite Hrun in Hcs. cbn [fst] in Hcs.
    rewrite (express_verification_passed
               srv this op req price h cv isValid cs settlement) by assumption.
    cbn [fst]. intros Hin. apply in_app_or in Hin.
    destruct Hin as [Hin | Hin];
      [destruct (Hcv Hin) as (r & payment & Hc & Hr)
      | destruct (Hcs Hin) as (r & payment & Hc & Hr)];
      exists price, r, payment; (split; [reflexivity|]); (split; [|exact Hr]);
      unfold params_of; rewrite Hc; reflexivity.
  - rewrite (express_verification_failed
               srv this op req price h cv isValid) by assumption.
    cbn [fst]. intros Hin.
    destruct (Hcv Hin) as (r & payment & Hc & Hr).
    exists price, r, payment. split; [reflexivity|]. split; [|exact Hr].
    unfold params_of. rewrite Hc. reflexivity.
Qed.


(** Every 402 reply of the Express handler that lists what it accepts lists
    one requirements object, in order for the resolved price. *)
Lemma express_challenges (srv : Async.facilitator) this op req body r :
  snd (Async.run srv [] (express this op req)) = inr (Responded 402 body) ->
  read body "accepts" = VArr [r] ->
  exists price,
    getPrice this (path req) (spread (pricing this) op) = inr price /\
    requirements_ok this price r.
Proof.
  handler_cases srv this op req.
  1-3: unfold Middleware.express;
       rewrite run_try_catch, run_bind, run_lift, Hprice; cbn [app];
       rewrite ?Hnn, ?Hnz; cbn; discriminate.
  - destruct (verifyPayment_run srv [] this h price)
      as (cv & isValid & Hv & Hobj & _).
    destruct (truthy (read isValid "success")) eqn:Hs.
    + destruct (settlePayment_run srv cv this h price)
        as (cs & settlement & Hrun & Hsobj & _).
      rewrite (express_verification_passed
                 srv this op req price h cv isValid cs settlement) by assumption.
      cbn [snd]. destruct (truthy (read settlement "success")); [discriminate|].
      intros Hb Hacc. inversion Hb; subst body. discriminate Hacc.
    + rewrite (express_verification_failed
                 srv this op req price h cv isValid) by assumption.
      cbn [snd].
      destruct (sendPaymentRequired this (path req) price (read isValid "error"))
        as [e | rep] eqn:Hsend; [discriminate|].
      destruct (sendPaymentRequired_challenge _ _ _ _ _ Hsend) as (r' & -> & Hr).
      intros Hb Hacc. inversion Hb; subst body. cbn in Hacc. inversion Hacc; subst r'.
      exists price. split; [reflexivity | exact Hr].
  - unfold Middleware.express.
    rewrite run_try_catch, run_bind, run_lift, Hprice. cbn [app].
    rewrite Hnn, Hnz, Hh, run_lift.
    destruct (sendPaymentRequired this (path req) price undefined)
      as [e | rep] eqn:Hsend; [cbn; discriminate|].
    destruct (sendPaymentRequired_challenge _ _ _ _ _ Hsend) as (r' & -> & Hr).
    cbn [snd]. intros Hb Hacc. inversion Hb; subst body. cbn in Hacc.
    inversion Hacc; subst r'.
    exists price. split; [reflexivity | exact Hr].
Qed.

Lemma fastify_calls (srv : Async.facilitator) this op req c :
  In c (fst (Async.run srv [] (fastify this op req))) ->
  exists price r payment,
    getPrice this (path req) (spread (pricing this) op) = inr price /\
    params_of c = VArr [r; payment] /\
    requirements_ok this price r.
Proof.
  handler_cases srv this op req.
  1-3, 5: unfold Middleware.fastify;
          rewrite run_bind, run_lift, Hprice; cbn [app];
          rewrite ?Hnn, ?Hnz, ?Hh, ?run_lift; cbn; tauto.
  destruct (verifyPayment_run srv [] this h price)
    as (cv & isValid & Hv & Hobj & _).
  pose proof (verifyPayment_calls srv [] this h price c) as Hcv.
  rewrite Hv in Hcv. cbn [fst] in Hcv.
  destruct (truthy (read isValid "success")) eqn:Hs.
  - destruct (settlePayment_run srv cv this h price)
      as (cs & settlement & Hrun & Hsobj & _).
    pose proof (settlePayment_calls srv cv this h price c) as Hcs.
    rewrite Hrun in Hcs. cbn [fst] in Hcs.
    rewrite (fastify_verification_passed
               srv this op req price h cv isValid cs settlement) by assumption.
    cbn [fst]. intros Hin. apply in_app_or in Hin.
    destruct Hin as [Hin | Hin];
      [destruct (Hcv Hin) as (r & payment & Hc & Hr)
      | destruct (Hcs Hin) as (r & payment & Hc & Hr)];
      exists price, r, payment; (split; [reflexivity|]); (split; [|exact Hr]);
      unfold params_of; rewrite Hc; reflexivity.
  - rewrite (fastify_verification_failed
               srv this op req price h cv isValid) by assumption.
    cbn [fst]. intros Hin.
    destruct (Hcv Hin) as (r & payment & Hc & Hr).
    exists price, r, payment. split; [reflexivity|]. split; [|exact Hr].
    unfold params_of. rewrite Hc. reflexivity.
Qed.

Lemma fastify_challenges (srv : Async.facilitator) this op req body r :
  snd (Async.run srv [] (fastify this op req)) = inr (Responded 402 body) ->
  read body "accepts" = VArr [r] ->
  exists price,
    getPrice this (path req) (spread (pricing this) op) = inr price /\
    requirements_ok this price r.
Proof.
  handler_cases srv this op req.
  1-3: unfold Middleware.fastify;
       rewrite run_bind, run_lift, Hprice; cbn [app];
       rewrite ?Hnn, ?Hnz; cbn; discriminate.
  - destruct (verifyPayment_run srv [] this h price)
      as (cv & isValid & Hv & Hobj & _).
    destruct (truthy (read isValid "success")) eqn:Hs.
    + destruct (settlePayment_run srv cv this h price)
        as (cs & settlement & Hrun & Hsobj & _).
      rewrite (fastify_verification_passed
                 srv this op req price h cv isValid cs settlement) by assumption.
      cbn [snd]. destruct (truthy (read settlement "success")); [discriminate|].
      intros Hb Hacc. inversion Hb; subst body. discriminate Hacc.
    + rewrite (fastify_verification_failed
                 srv this op req price h cv isValid) by assumption.
      cbn [snd]. intros Hsend.
      destruct (sendPaymentRequiredFastify_challenge _ _ _ _ _ Hsend) as (r' & Hb & Hr).
      intros Hacc. inversion Hb; subst body. cbn in Hacc. inversion Hacc; subst r'.
      exists price. split; [reflexivity | exact Hr].
  - unfold Middleware.fastify.
    rewrite run_bind, run_lift, Hprice. cbn [app].
    rewrite Hnn, Hnz, Hh, run_lift. cbn [snd]. intros Hsend.
    destruct (sendPaymentRequiredFastify_challenge _ _ _ _ _ Hsend) as (r' & Hb & Hr).
    intros Hacc. inversion Hb; subst body. cbn in Hacc. inversion Hacc; subst r'.
    exists price. split; [reflexivity | exact Hr].
Qed.

(** C7: every requirements object the middleware builds (the first
    parameter of each [x402_verify] and [x402_settle] call, and the object a
    402 challenge accepts, under Express and under Fastify) has scheme
    'exact', the configured network and payTo, the all-zero asset address,
    maxTimeoutSeconds 300, and maxAmountRequired equal to [spldToWei] of the
    price, which in a handler is the resolved price. *)
Theorem requirements_objects_are_in_order (srv : Async.facilitator) this :
  (forall history h price c,
     In c (fst (Async.run srv history (verifyPayment this h price))) ->
     exists r payment,
       snd c = rpc_request "x402_verify" [r; payment] /\ requirements_ok this price r) /\
  (forall history h price c,
     In c (fst (Async.run srv history (settlePayment this h price))) ->
     exists r payment,
       snd c = rpc_request "x402_settle" [r; payment] /\ requirements_ok this price r) /\
  (forall resource price error rep,
     sendPaymentRequired this resource price error = inr rep \/
     sendPaymentRequiredFastify this resource price error = inr rep ->
     exists r,
       rep = Responded 402
               (VObj [("x402Version", VNum 1%float);
                      ("accepts", VArr [r]);
                      ("error", default_null error)]) /\
       requirements_ok this price r) /\
  (forall op req c,
     In c (fst (Async.run srv [] (express this op req))) \/
     In c (fst (Async.run srv [] (fastify this op req))) ->
     exists price r payment,
       getPrice this (path req) (spread (pricing this) op) = inr price /\
       params_of c = VArr [r; payment] /\
       requirements_ok this price r) /\
  (forall op req body r,
     snd (Async.run srv [] (express this op req)) = inr (Responded 402 body) \/
     snd (Async.run srv [] (fastify this op req)) = inr (Responded 402 body) ->
     read body "accepts" = VArr [r] ->
     exists price,
       getPrice this (path req) (spread (pricing this) op) = inr price /\
       requirements_ok this price r).
Proof.
  repeat apply conj.
  - intros history h price c. apply verifyPayment_calls.
  - intros history h price c. apply settlePayment_calls.
  - intros resource price error rep [H | H];
      [apply (sendPaymentRequired_challenge _ resource) | apply (sendPaymentRequiredFastify_challenge _ resource)];
      exact H.
  - intros op req c [H | H]; [apply (express_calls srv) | apply (fastify_calls srv)]; exact H.
  - intros op req body r [H | H];
      [apply (express_challenges srv) | apply (fastify_challenges srv)]; exact H.
Qed.

(** ** Failures of the facilitator calls *)

(** [verifyPayment] and [settlePayment] never throw. *)
Lemma verifyPayment_never_throws (srv : Async.facilitator) history this h amount :
  exists v, snd (Async.run srv history (verifyPayment this h amount)) = inr v.
Proof.
  destruct (verifyPayment_run srv history this h amount)
    as (calls & v & -> & _). exists v. reflexivity.
Qed.

Lemma settlePayment_never_throws (srv : Async.facilitator) history this h amount :
  exists v, snd (Async.run srv history (settlePayment this h amount)) = inr v.
Proof.
  destruct (settlePayment_run srv history this h amount)
    as (calls & v & -> & _). exists v. reflexivity.
Qed.

(** A header that does not decode: no call, failure reported. *)
Lemma payment_bad_header (srv : Async.facilitator) history this h amount e :
  decode_payment h = inl e ->
  Async.run srv history (verifyPayment this h amount) = ([], inr verification_failed) /\
  Async.run srv history (settlePayment this h amount) = ([], inr settlement_failed).
Proof.
  intros Hd. unfold Middleware.verifyPayment, Middleware.settlePayment.
  rewrite Hd. split; reflexivity.
Qed.

(** A transport failure: failure reported. *)
Lemma verifyPayment_transport_failure (srv : Async.facilitator) history this h amount c e :
  fst (Async.run srv history (verifyPayment this h amount)) = [c] ->
  srv history c = Async.Rejected e ->
  snd (Async.run srv history (verifyPayment this h amount)) = inr verification_failed.
Proof.
  intros Hcalls Hsrv.
  unfold Middleware.verifyPayment, Async.axios_post, Async.lift, get in *.
  destruct (decode_payment h) as [|payment]; [discriminate|].
  destruct (spldToWei amount) as [|wei]; [discriminate|].
  the_call Hcalls Hrun.
  rewrite Hsrv in Hrun. cbn in Hrun. inversion Hrun; subst. reflexivity.
Qed.

Lemma settlePayment_transport_failure (srv : Async.facilitator) history this h amount c e :
  fst (Async.run srv history (settlePayment this h amount)) = [c] ->
  srv history c = Async.Rejected e ->
  snd (Async.run srv history (settlePayment this h amount)) = inr settlement_failed.
Proof.
  intros Hcalls Hsrv.
  unfold Middleware.settlePayment, Async.axios_post, Async.lift, get in *.
  destruct (decode_payment h) as [|payment]; [discriminate|].
  destruct (spldToWei amount) as [|wei]; [discriminate|].
  the_call Hcalls Hrun.
  rewrite Hsrv in Hrun. cbn in Hrun. inversion Hrun; subst. reflexivity.
Qed.

(** An RPC-level error: failure reported, with the error's message. *)
Lemma verifyPayment_rpc_error (srv : Async.facilitator) history this h amount c data :
  fst (Async.run srv history (verifyPayment this h amount)) = [c] ->
  srv history c = Async.Resolved data ->
  truthy (read data "error") = true ->
  snd (Async.run srv history (verifyPayment this h amount)) =
    inr (VObj [("success", VBool false);
               ("error", read (read data "error") "message")]).
Proof.
  intros Hcalls Hsrv Herr.
  assert (Hdata : nullish_value data = false).
  { destruct (nullish_value data) eqn:E; [|reflexivity].
    rewrite (read_nullish _ _ E) in Herr. discriminate. }
  pose proof (truthy_not_nullish _ Herr) as Hnn.
  unfold Middleware.verifyPayment, Async.axios_post, Async.lift, get in *.
  destruct (decode_payment h) as [|payment]; [discriminate|].
  destruct (spldToWei amount) as [|wei]; [discriminate|].
  the_call Hcalls Hrun.
  rewrite Hsrv in Hrun. cbn -[read cannot_read] in Hrun.
  rewrite Hdata in Hrun. cbn -[read cannot_read] in Hrun.
  rewrite Herr in Hrun. cbn -[read cannot_read] in Hrun.
  rewrite Hnn in Hrun. cbn -[read cannot_read] in Hrun.
  inversion Hrun; subst. reflexivity.
Qed.

Lemma settlePayment_rpc_error (srv : Async.facilitator) history this h amount c data :
  fst (Async.run srv history (settlePayment this h amount)) = [c] ->
  srv history c = Async.Resolved data ->
  truthy (read data "error") = true ->
  snd (Async.run srv history (settlePayment this h amount)) =
    inr (VObj [("success", VBool false);
               ("error", read (read data "error") "message")]).
Proof.
  intros Hcalls Hsrv Herr.
  assert (Hdata : nullish_value data = false).
  { destruct (nullish_value data) eqn:E; [|reflexivity].
    rewrite (read_nullish _ _ E) in Herr. discriminate. }
  pose proof (truthy_not_nullish _ Herr) as Hnn.
  unfold Middleware.settlePayment, Async.axios_post, Async.lift, get in *.
  destruct (decode_payment h) as [|payment]; [discriminate|].
  destruct (spldToWei amount) as [|wei]; [discriminate|].
  the_call Hcalls Hrun.
  rewrite Hsrv in Hrun. cbn -[read cannot_read] in Hrun.
  rewrite Hdata in Hrun. cbn -[read cannot_read] in Hrun.
  rewrite Herr in Hrun. cbn -[read cannot_read] in Hrun.
  rewrite Hnn in Hrun. cbn -[read cannot_read] in Hrun.
  inversion Hrun; subst. reflexivity.
Qed.

End Runtime.


(** ** [getSupported] *)

Lemma getSupported_never_throws (srv : Async.facilitator) history this :
  exists v, snd (Async.run srv history (getSupported this)) = inr v.
Proof.
  unfold getSupported, Async.axios_post, Async.lift, get.
  crunch; eexists; reflexivity.
Qed.

Lemma getSupported_transport_failure (srv : Async.facilitator) history this e :
  srv history (facilitatorUrl this, rpc_request "x402_supported" []) = Async.Rejected e ->
  Async.run srv history (getSupported this) =
    ([(facilitatorUrl this, rpc_request "x402_supported" [])],
     inr (VObj [("kinds", VArr [])])).
Proof.
  intros Hsrv. unfold getSupported, Async.axios_post.
  cbn -[read cannot_read]. rewrite Hsrv. reflexivity.
Qed.

(** Whatever the response says, error or not, its [result] is returned. *)
Lemma getSupported_response (srv : Async.facilitator) history this data :
  srv history (facilitatorUrl this, rpc_request "x402_supported" []) = Async.Resolved data ->
  nullish_value data = false ->
  Async.run srv history (getSupported this) =
    ([(facilitatorUrl this, rpc_request "x402_supported" [])],
     inr (read data "result")).
Proof.
  intros Hsrv Hdata. unfold getSupported, Async.axios_post, Async.lift, get.
  cbn -[read cannot_read]. rewrite Hsrv. cbn -[read cannot_read].
  rewrite Hdata. reflexivity.
Qed.

(** C9: on an RPC-level error [getSupported] returns [undefined], not
    [{kinds: []}]: against a node that answers every call with a JSON-RPC
    error object, the error is not looked at and the missing [result] is
    returned. *)
Theorem getSupported_rpc_error_returns_undefined :
  Sample.no_x402 [] (facilitatorUrl Sample.readme_middleware,
                     rpc_request "x402_supported" [])
  = Sample.rpc_error "the method x402_supported does not exist/is not available" /\
  Async.run Sample.no_x402 [] (getSupported Sample.readme_middleware) =
    ([("http://localhost:80", rpc_request "x402_supported" [])], inr undefined) /\
  undefined <> VObj [("kinds", VArr [])].
Proof.
  split; [reflexivity|]. split; [reflexivity | discriminate].
Qed.

(** ** The theorems at work on the README's configuration *)

Local Abbreviation sample_express :=
  (express Sample.RegExp_test Sample.decode_payment Sample.readme_middleware None).

Local Abbreviation sample_verifyPayment :=
  (verifyPayment Sample.decode_payment Sample.readme_middleware Sample.x_payment_header).

Local Abbreviation sample_settlePayment :=
  (settlePayment Sample.decode_payment Sample.readme_middleware Sample.x_payment_header).

Lemma verifyPayment_result_fields_witness :
  snd (Async.run Sample.honest [] (sample_verifyPayment (PStr "0.0001"))) =
    inr (VObj [("success", VBool true);
               ("error", undefined);
               ("payerAddress", VStr "0xPayer")]).
Proof.
  exact (proj2 (verifyPayment_result_fields Sample.decode_payment Sample.honest []
                  Sample.readme_middleware Sample.x_payment_header (PStr "0.0001")
                  _ _ eq_refl eq_refl eq_refl eq_refl)).
Defined.

Lemma express_verifies_before_settling_witness :
  exists cv isValid cs,
    Async.run Sample.rejecting [] (sample_verifyPayment (PStr "0.0001")) = (cv, inr isValid) /\
    fst (Async.run Sample.rejecting [] (sample_express (Sample.paid_request "/api/premium")))
      = (cv ++ cs)%list /\
    cs = [] /\
    exists r,
      requirements_ok Sample.readme_middleware (PStr "0.0001") r /\
      read r "resource" = VStr "/api/premium" /\
      snd (Async.run Sample.rejecting [] (sample_express (Sample.paid_request "/api/premium"))) =
        inr (Responded 402
               (VObj [("x402Version", VNum 1%float);
                      ("accepts", VArr [r]);
                      ("error", VStr "Expired")])).
Proof.
  destruct (express_verifies_before_settling Sample.RegExp_test Sample.decode_payment
              Sample.rejecting Sample.readme_middleware None
              (Sample.paid_request "/api/premium") (PStr "0.0001") Sample.x_payment_header
              eq_refl eq_refl eq_refl eq_refl eq_refl)
    as (cv & isValid & cs & Hv & Hcalls & _ & _ & _ & _ & Hfail).
  exists cv, isValid, cs.
  split; [exact Hv|]. split; [exact Hcalls|].
  assert (Hf : truthy (read isValid "success") = false /\
               default_null (read isValid "error") = VStr "Expired").
  { vm_compute in Hv. inversion Hv; subst. split; reflexivity. }
  destruct Hf as [Hf He].
  destruct (Hfail Hf) as (Hcs & r & Hr & Hres & Hreply).
  split; [exact Hcs|]. exists r. rewrite He in Hreply.
  split; [exact Hr | split; [exact Hres | exact Hreply]].
Defined.

Lemma settlement_failure_denies_access_witness :
  snd (Async.run Sample.broke
         [("http://localhost:80",
           rpc_request "x402_verify"
             [VObj [("scheme", VStr "exact");
                    ("network", VStr "splendor");
                    ("maxAmountRequired", VStr "0x5af3107a4000");
                    ("resource", VStr "api-access");
                    ("description", VStr "API access payment");
                    ("mimeType", VStr "application/json");
                    ("payTo", VStr "0xYourWalletAddress");
                    ("maxTimeoutSeconds", VNum 300%float);
                    ("asset", VStr zero_address)];
              Sample.payment])]
         (sample_settlePayment (PStr "0.0001"))) =
    inr (VObj [("success", VBool false);
               ("error", VStr "InsufficientBalance");
               ("txHash", undefined)]) /\
  snd (Async.run Sample.broke [] (sample_express (Sample.paid_request "/api/premium"))) =
    inr (Responded 402
           (VObj [("error", VStr "Payment settlement failed");
                  ("details", VStr "InsufficientBalance")])).
Proof.
  split.
  - exact (proj2 (proj1 (settlement_failure_denies_access
                           Sample.RegExp_test Sample.decode_payment)
                    Sample.broke _ Sample.readme_middleware Sample.x_payment_header
                    (PStr "0.0001") _ _ eq_refl eq_refl eq_refl eq_refl)).
  - exact (f_equal snd
             (proj2 (settlement_failure_denies_access Sample.RegExp_test Sample.decode_payment)
                Sample.broke Sample.readme_middleware None
                (Sample.paid_request "/api/premium") (PStr "0.0001")
                Sample.x_payment_header _ _ _ _
                eq_refl eq_refl eq_refl eq_refl eq_refl eq_refl eq_refl eq_refl)).
Defined.

Lemma price_resolution_witness :
  getPrice Sample.RegExp_test Sample.readme_middleware "/api/premium"
    (pricing Sample.readme_middleware) = inr (PStr "0.0001") /\
  getPrice Sample.RegExp_test Sample.readme_middleware "/api/data/blocks"
    (pricing Sample.readme_middleware) = inr (PStr "0.01") /\
  getPrice Sample.RegExp_test Sample.readme_middleware "/health"
    (pricing Sample.readme_middleware) = inr PNull /\
  Async.run Sample.offline [] (sample_express (Sample.paid_request "/health")) =
    ([], inr (Responded 500
                (VObj [("error", VStr "x402 price not configured for this resource");
                       ("details", VStr "Add a pricing rule for this path or supply defaultPrice when initializing the middleware.")]))) /\
  Async.run Sample.offline [] (sample_express (Sample.paid_request "/api/free")) =
    ([], inr NextFree).
Proof.
  pose proof (price_resolution Sample.RegExp_test Sample.decode_payment
                Sample.readme_middleware) as (Hexact & Hfirst & Hnone & Hnull & Hfree).
  repeat apply conj.
  - exact (Hexact "/api/premium" (pricing Sample.readme_middleware) (PStr "0.0001")
             eq_refl eq_refl).
  - apply (Hfirst "/api/data/blocks" (pricing Sample.readme_middleware)
             [("/api/free", PStr "0"); ("/api/premium", PStr "0.0001")]
             "/api/data/*" (PStr "0.01") [("/api/analytics", PStr "0.05")]);
      [reflexivity | reflexivity | repeat constructor | reflexivity].
  - apply (Hnone "/health" (pricing Sample.readme_middleware));
      [reflexivity | repeat constructor].
  - exact (Hnull Sample.offline None (Sample.paid_request "/health") PNull eq_refl eq_refl).
  - exact (Hfree Sample.offline None (Sample.paid_request "/api/free") (PStr "0")
             eq_refl eq_refl eq_refl).
Defined.

Lemma requirements_objects_are_in_order_witness :
  (exists r,
     sendPaymentRequired Sample.readme_middleware "/api/premium" (PStr "0.0001") undefined =
       inr (Responded 402
              (VObj [("x402Version", VNum 1%float);
                     ("accepts", VArr [r]);
                     ("error", null)])) /\
     requirements_ok Sample.readme_middleware (PStr "0.0001") r) /\
  (exists c price r payment,
     In c (fst (Async.run Sample.honest []
                  (sample_express (Sample.paid_request "/api/premium")))) /\
     method_of c = VStr "x402_settle" /\
     getPrice Sample.RegExp_test Sample.readme_middleware "/api/premium"
       (pricing Sample.readme_middleware) = inr price /\
     params_of c = VArr [r; payment] /\
     requirements_ok Sample.readme_middleware price r).
Proof.
  pose proof (requirements_objects_are_in_order Sample.RegExp_test Sample.decode_payment
                Sample.honest Sample.readme_middleware)
    as (_ & _ & Hsend & Hcalls & _).
  split.
  - edestruct (Hsend "/api/premium" (PStr "0.0001") undefined) as (r & Hrep & Hr).
    { left. reflexivity. }
    exists r. split; [exact (f_equal (@inr exn reply) Hrep) | exact Hr].
  - edestruct (Hcalls None (Sample.paid_request "/api/premium"))
      as (price & r & payment & Hprice & Hparams & Hr).
    { left. right. left. reflexivity. }
    eexists _, price, r, payment.
    split; [right; left; reflexivity|].
    split; [reflexivity|].
    split; [exact Hprice|]. split; [exact Hparams | exact Hr].
Defined.

(** ** Three requests to the README's server *)

(** A paid request, accepted and settled: verify, then settle, then [next]
    with the payment attached to the request. *)
Example express_paid_request :
  map method_of
      (fst (Async.run Sample.honest [] (sample_express (Sample.paid_request "/api/premium"))))
    = [VStr "x402_verify"; VStr "x402_settle"] /\
  snd (Async.run Sample.honest [] (sample_express (Sample.paid_request "/api/premium")))
    = inr (NextPaid
             (VObj [("paid", VBool true);
                    ("amount", VStr "0.0001");
                    ("txHash", VStr "0xabc");
                    ("payer", VStr "0xPayer")])
             (VObj [("success", VBool true);
                    ("txHash", VStr "0xabc");
                    ("networkId", VStr "splendor")])).
Proof. split; reflexivity. Qed.

(** No header: the 402 challenge, and no call. *)
Example express_unpaid_request :
  Async.run Sample.honest []
    (sample_express {| path := "/api/premium"; x_payment := None |})
  = ([],
     inr (Responded 402
            (VObj [("x402Version", VNum 1%float);
                   ("accepts",
                    VArr [VObj [("scheme", VStr "exact");
                                ("network", VStr "splendor");
                                ("maxAmountRequired", VStr "0x5af3107a4000");
                                ("resource", VStr "/api/premium");
                                ("description", VStr "Payment required for /api/premium");
                                ("mimeType", VStr "application/json");
                                ("payTo", VStr "0xYourWalletAddress");
                                ("maxTimeoutSeconds", VNum 300%float);
                                ("asset", VStr zero_address)]]);
                   ("error", null)]))).
Proof. reflexivity. Qed.

(** A header that is not a payment: no call, and the 402 challenge with the
    reason 'Verification failed'. *)
Example express_garbled_header :
  fst (Async.run Sample.honest []
         (sample_express {| path := "/api/premium"; x_payment := Some "garbage" |})) = [] /\
  exists body,
    snd (Async.run Sample.honest []
           (sample_express {| path := "/api/premium"; x_payment := Some "garbage" |}))
      = inr (Responded 402 body) /\
    read body "error" = VStr "Verification failed".
Proof. split; [reflexivity|]. eexists. split; reflexivity. Qed.

End MiddlewareFacts.

(* ================================================================= *)
(** * The pricing table of a handler *)

Module PricingFacts.
Import JS Middleware.

Local Abbreviation keys := (map (@fst string prim)).

Lemma lookup_assign (obj : pricing_table) (key : string) (v : prim) (k : string) :
  lookup (assign obj key v) k = if key =? k then Some v else lookup obj k.
Proof.
  induction obj as [| [k' v'] rest IH]; cbn [assign lookup].
  - reflexivity.
  - destruct (k' =? key) eqn:Ek; cbn [lookup].
    + apply String.eqb_eq in Ek. subst k'. destruct (key =? k); reflexivity.
    + rewrite IH. destruct (k' =? k) eqn:Ek'; [|reflexivity].
      apply String.eqb_eq in Ek'. subst k'. rewrite String.eqb_sym, Ek. reflexivity.
Qed.

Lemma lookup_app (a b : pricing_table) (k : string) :
  lookup (a ++ b) k = match lookup a k with Some v => Some v | None => lookup b k end.
Proof.
  induction a as [| [k' v'] rest IH]; cbn [app lookup]; [reflexivity|].
  destruct (k' =? k); [reflexivity | exact IH].
Qed.

Lemma lookup_none_iff (l : pricing_table) (k : string) :
  lookup l k = None <-> ~ In k (keys l).
Proof.
  induction l as [| [k' v'] rest IH]; cbn [lookup map fst In].
  - tauto.
  - destruct (k' =? k) eqn:E.
    + apply String.eqb_eq in E. split; [discriminate | tauto].
    + apply String.eqb_neq in E. tauto.
Qed.

(** Folding [assign] over entries: the last entry of a key wins, and keys
    that do not occur keep what the object had. *)
Lemma lookup_fold_assign (l acc : pricing_table) (k : string) :
  lookup (fold_left (fun acc kv => assign acc (fst kv) (snd kv)) l acc) k =
  match lookup (rev l) k with
  | Some v => Some v
  | None => lookup acc k
  end.
Proof.
  revert acc. induction l as [| [k' v'] rest IH]; intros acc; cbn [fold_left rev].
  - reflexivity.
  - rewrite IH, lookup_app. cbn [fst snd lookup].
    destruct (lookup (rev rest) k); [reflexivity|].
    rewrite lookup_assign. destruct (k' =? k); reflexivity.
Qed.

Lemma lookup_rev (l : pricing_table) (k : string) :
  NoDup (keys l) -> lookup (rev l) k = lookup l k.
Proof.
  induction l as [| [k' v'] rest IH]; intros Hnd; cbn [rev lookup]; [reflexivity|].
  cbn [map fst] in Hnd. inversion Hnd as [| ? ? Hnotin Hnd']; subst.
  rewrite lookup_app, (IH Hnd'). cbn [lookup].
  destruct (k' =? k) eqn:E.
  - apply String.eqb_eq in E. subst k'.
    apply lookup_none_iff in Hnotin. rewrite Hnotin. reflexivity.
  - destruct (lookup rest k); reflexivity.
Qed.

(** X1: in [{ ...this.pricing, ...options.pricing }] a path priced by the
    handler's options takes that price, and every other path keeps the
    price of the instance. *)
Theorem spread_overrides (a b : pricing_table) (k : string) :
  NoDup (keys a) -> NoDup (keys b) ->
  lookup (spread a (Some b)) k =
  match lookup b k with
  | Some v => Some v
  | None => lookup a k
  end.
Proof.
  intros Ha Hb. unfold spread.
  rewrite !lookup_fold_assign, (lookup_rev a k Ha), (lookup_rev b k Hb).
  cbn [lookup]. destruct (lookup b k); [reflexivity|].
  destruct (lookup a k); reflexivity.
Qed.

Lemma assign_fresh (obj : pricing_table) (key : string) (v : prim) :
  ~ In key (keys obj) -> assign obj key v = (obj ++ [(key, v)])%list.
Proof.
  induction obj as [| [k' v'] rest IH]; cbn [assign map fst In app]; intros Hn.
  - reflexivity.
  - destruct (k' =? key) eqn:E.
    + apply String.eqb_eq in E. tauto.
    + rewrite IH by tauto. reflexivity.
Qed.

Lemma fold_assign_fresh (l acc : pricing_table) :
  NoDup (keys (acc ++ l)) ->
  fold_left (fun acc kv => assign acc (fst kv) (snd kv)) l acc = (acc ++ l)%list.
Proof.
  revert acc. induction l as [| [k' v'] rest IH]; intros acc Hnd; cbn [fold_left fst snd].
  - rewrite app_nil_r. reflexivity.
  - assert (Hfresh : ~ In k' (keys acc)).
    { rewrite map_app in Hnd. cbn [map fst] in Hnd.
      apply NoDup_remove_2 in Hnd. rewrite in_app_iff in Hnd. tauto. }
    rewrite (assign_fresh acc k' v' Hfresh), IH; rewrite <- app_assoc; [reflexivity|].
    exact Hnd.
Qed.

(** X2: spreading a table alone copies it, and spreading a table with
    other paths after it appends them in their order: the instance's
    entries come first in the loop of [getPrice]. *)
Theorem spread_disjoint (a b : pricing_table) :
  NoDup (keys (a ++ b)) ->
  spread a None = a /\ spread a (Some b) = (a ++ b)%list.
Proof.
  intros Hnd.
  assert (Ha : NoDup (keys a)).
  { rewrite map_app in Hnd. exact (NoDup_app_remove_r _ _ Hnd). }
  unfold spread. rewrite (fold_assign_fresh a []) by exact Ha. cbn [app fold_left].
  split; [reflexivity|]. apply fold_assign_fresh. exact Hnd.
Qed.

(** ** On two small tables *)

Lemma spread_overrides_witness :
  lookup (spread [("/a", PStr "1"); ("/b", PStr "2")]
                 (Some [("/b", PStr "3"); ("/c", PStr "4")])) "/b" = Some (PStr "3").
Proof.
  apply (spread_overrides [("/a", PStr "1"); ("/b", PStr "2")]
           [("/b", PStr "3"); ("/c", PStr "4")] "/b");
    repeat constructor; cbn; intuition discriminate.
Defined.

Lemma spread_disjoint_witness :
  spread [("/a", PStr "1"); ("/b", PStr "2")] None = [("/a", PStr "1"); ("/b", PStr "2")] /\
  spread [("/a", PStr "1"); ("/b", PStr "2")] (Some [("/c", PStr "4")]) =
    [("/a", PStr "1"); ("/b", PStr "2"); ("/c", PStr "4")].
Proof.
  apply (spread_disjoint [("/a", PStr "1"); ("/b", PStr "2")] [("/c", PStr "4")]).
  repeat constructor; cbn; intuition discriminate.
Defined.

End PricingFacts.

(* ================================================================= *)
(** * Price resolution: plain tables, and what is thrown *)

Module ResolutionFacts.
Import JS Middleware.

Section Runtime.

Variable RegExp_test : string -> string -> exn + bool.

Local Abbreviation getPrice := (Middleware.getPrice RegExp_test).
Local Abbreviation matchPath := (Middleware.matchPath RegExp_test).
Local Abbreviation first_match := (Middleware.first_match RegExp_test).

(** Without a star the loop is a lookup by equality. *)
Lemma first_match_plain (path : string) (entries : pricing_table) :
  Forall (fun e => includes_star (fst e) = false) entries ->
  first_match path entries = inr (lookup entries path).
Proof.
  induction 1 as [| [pattern price] rest Hs _ IH]; cbn [Middleware.first_match lookup].
  - reflexivity.
  - cbn [fst] in Hs. unfold Middleware.matchPath. rewrite Hs. cbn [bind_exn].
    rewrite String.eqb_sym. destruct (pattern =? path); [reflexivity | exact IH].
Qed.

(** X3: on a table without wildcards [getPrice] is a lookup: the entry of the
    path, falsy or not, else [defaultPrice] when it is neither null nor
    undefined, else null; no regular expression is built and nothing is
    thrown. *)
Theorem getPrice_without_wildcards (this : middleware) (path : string)
    (pricing : pricing_table) :
  Forall (fun e => includes_star (fst e) = false) pricing ->
  getPrice this path pricing =
    inr (match lookup pricing path with
         | Some price => price
         | None => if nullish (defaultPrice this) then PNull else defaultPrice this
         end).
Proof.
  intros Hplain. unfold Middleware.getPrice.
  rewrite (first_match_plain path pricing Hplain). cbn [bind_exn].
  destruct (lookup pricing path) as [price|].
  - destruct (truthy_prim price); reflexivity.
  - cbn [truthy_prim]. destruct (nullish (defaultPrice this)); reflexivity.
Qed.

Lemma first_match_throws (path : string) (entries : pricing_table) (e : exn) :
  first_match path entries = inl e ->
  exists pattern price,
    In (pattern, price) entries /\
    includes_star pattern = true /\
    RegExp_test ("^" ++ replace_stars pattern ++ "$") path = inl e.
Proof.
  induction entries as [| [pattern price] rest IH]; cbn [Middleware.first_match];
    [discriminate|].
  unfold Middleware.matchPath.
  destruct (includes_star pattern) eqn:Hs.
  - destruct (RegExp_test ("^" ++ replace_stars pattern ++ "$") path)
      as [e' | m] eqn:Ht; cbn [bind_exn].
    + intros H. inversion H; subst e'.
      exists pattern, price. split; [left; reflexivity | split; assumption].
    + destruct m; [discriminate|]. intros H.
      destruct (IH H) as (p & v & Hin & Hp). exists p, v. split; [right; exact Hin | exact Hp].
  - cbn [bind_exn]. destruct (path =? pattern); [discriminate|]. intros H.
    destruct (IH H) as (p & v & Hin & Hp). exists p, v. split; [right; exact Hin | exact Hp].
Qed.

(** X4: [getPrice] throws only what [new RegExp] throws on a wildcard
    pattern of the table, and only when the path has no truthy entry of its
    own. *)
Theorem getPrice_throws_only_from_RegExp (this : middleware) (path : string)
    (pricing : pricing_table) (e : exn) :
  getPrice this path pricing = inl e ->
  truthy_prim (match lookup pricing path with Some p => p | None => PUndefined end)
    = false /\
  exists pattern price,
    In (pattern, price) pricing /\
    includes_star pattern = true /\
    RegExp_test ("^" ++ replace_stars pattern ++ "$") path = inl e.
Proof.
  unfold Middleware.getPrice.
  destruct (truthy_prim _) eqn:Ht; [discriminate|].
  destruct (first_match path pricing) as [e' | found] eqn:Hm; cbn [bind_exn].
  - intros H. inversion H; subst e'. split; [reflexivity|].
    exact (first_match_throws path pricing e Hm).
  - destruct found; [discriminate|]. destruct (negb _); discriminate.
Qed.

End Runtime.

(** ** On two small tables *)

Lemma getPrice_without_wildcards_witness :
  getPrice Sample.RegExp_test Sample.readme_middleware "/api/free"
    [("/api/free", PNum 0%float); ("/api/premium", PStr "0.0001")] = inr (PNum 0%float).
Proof.
  apply (getPrice_without_wildcards Sample.RegExp_test Sample.readme_middleware "/api/free"
           [("/api/free", PNum 0%float); ("/api/premium", PStr "0.0001")]).
  repeat constructor.
Defined.

Lemma getPrice_throws_only_from_RegExp_witness :
  exists pattern price,
    In (pattern, price) [("/api/free", PStr "0"); ("/api/(*", PStr "1")] /\
    includes_star pattern = true /\
    Sample.picky_RegExp_test ("^" ++ replace_stars pattern ++ "$") "/api/x" =
      inl (SyntaxError "Invalid regular expression: /^/api/(.*$/: Unterminated group").
Proof.
  exact (proj2 (getPrice_throws_only_from_RegExp Sample.picky_RegExp_test
                  Sample.readme_middleware "/api/x"
                  [("/api/free", PStr "0"); ("/api/(*", PStr "1")] _ eq_refl)).
Defined.

End ResolutionFacts.

(* ================================================================= *)
(** * Instances and factories *)

Module InstanceFacts.
Import JS Middleware.

Lemma or_string_nonempty (o : option string) (fallback : string) :
  fallback <> "" -> or_string o fallback <> "".
Proof.
  intros Hf. unfold or_string. destruct o as [s|]; [|exact Hf].
  destruct (s =? "") eqn:E; [exact Hf|]. apply String.eqb_neq. exact E.
Qed.

(** X5: every instance the constructor returns has the [payTo] of the
    options, non-empty, a non-empty [rpcUrl], [facilitatorUrl] and [network]
    and a truthy [chainId]; an option that is falsy (an empty string, the
    number 0) falls back like an absent one, and [facilitatorUrl] falls back
    to [rpcUrl]. *)
Theorem constructor_instance_fields (o : options) (this : middleware) :
  constructor o = inr this ->
  opt_payTo o = Some (payTo this) /\
  payTo this <> "" /\
  rpcUrl this <> "" /\
  facilitatorUrl this <> "" /\
  network this <> "" /\
  truthy_prim (PNum (chainId this)) = true /\
  (opt_facilitatorUrl o = None \/ opt_facilitatorUrl o = Some "" ->
   facilitatorUrl this = rpcUrl this) /\
  (opt_rpcUrl o = Some "" -> rpcUrl this = "http://localhost:80") /\
  (opt_network o = Some "" -> network this = "splendor") /\
  (opt_chainId o = Some 0%float -> chainId this = 2691%float) /\
  pricing this = match opt_pricing o with Some p => p | None => [] end /\
  (forall p, opt_defaultPrice o = Some p -> defaultPrice this = p).
Proof.
  unfold constructor. intros H.
  destruct (opt_payTo o) as [address|]; [|discriminate].
  destruct (address =? "") eqn:Ha; [discriminate|].
  inversion H; subst this; clear H. cbn.
  assert (Hr : or_string (opt_rpcUrl o) "http://localhost:80" <> "")
    by (apply or_string_nonempty; discriminate).
  repeat apply conj.
  - reflexivity.
  - apply String.eqb_neq. exact Ha.
  - exact Hr.
  - apply or_string_nonempty. exact Hr.
  - apply or_string_nonempty. discriminate.
  - unfold or_number. destruct (opt_chainId o) as [n|]; [|reflexivity].
    destruct (truthy_prim (PNum n)) eqn:E; [exact E | reflexivity].
  - intros [-> | ->]; reflexivity.
  - intros ->. reflexivity.
  - intros ->. reflexivity.
  - intros ->. reflexivity.
  - reflexivity.
  - intros p ->. reflexivity.
Qed.

Lemma constructor_instance_fields_witness :
  opt_payTo Sample.readme_options = Some "0xYourWalletAddress" /\
  "0xYourWalletAddress" <> "" /\
  "http://localhost:80" <> "" /\
  facilitatorUrl Sample.readme_middleware <> "" /\
  network Sample.readme_middleware <> "" /\
  truthy_prim (PNum 2691%float) = true /\
  facilitatorUrl Sample.readme_middleware = rpcUrl Sample.readme_middleware.
Proof.
  destruct (constructor_instance_fields Sample.readme_options Sample.readme_middleware eq_refl)
    as (H1 & H2 & H3 & H4 & H5 & H6 & H7 & _).
  split; [exact H1|]. split; [exact H2|]. split; [exact H3|]. split; [exact H4|].
  split; [exact H5|]. split; [exact H6|]. apply H7. left. reflexivity.
Defined.

End InstanceFacts.

Module FactoryFacts.
Import JS Middleware.

Lemma assign_present (obj : pricing_table) (key : string) (v : prim) :
  lookup obj key = Some v -> assign obj key v = obj.
Proof.
  induction obj as [| [k' v'] rest IH]; cbn [lookup assign]; [discriminate|].
  destruct (k' =? key) eqn:E.
  - apply String.eqb_eq in E. intros H. inversion H; subst. reflexivity.
  - intros H. rewrite (IH H). reflexivity.
Qed.

Lemma fold_assign_present (l acc : pricing_table) :
  Forall (fun kv => lookup acc (fst kv) = Some (snd kv)) l ->
  fold_left (fun acc kv => assign acc (fst kv) (snd kv)) l acc = acc.
Proof.
  induction 1 as [| [k v] rest Hk _ IH]; cbn [fold_left fst snd]; [reflexivity|].
  cbn [fst snd] in Hk. rewrite (assign_present acc k v Hk). exact IH.
Qed.

Lemma lookup_own (l : pricing_table) :
  NoDup (map fst l) -> Forall (fun kv => lookup l (fst kv) = Some (snd kv)) l.
Proof.
  induction l as [| [k v] rest IH]; intros Hnd; [constructor|].
  cbn [map fst] in Hnd. inversion Hnd as [| ? ? Hnotin Hnd']; subst.
  constructor.
  - cbn. rewrite String.eqb_refl. reflexivity.
  - specialize (IH Hnd'). rewrite Forall_forall in IH |- *.
    intros [k' v'] Hin. cbn [fst snd lookup].
    destruct (k =? k') eqn:E.
    + apply String.eqb_eq in E. subst k'. exfalso. apply Hnotin.
      apply (in_map fst) in Hin. exact Hin.
    + exact (IH _ Hin).
Qed.

Section Runtime.

Variable RegExp_test : string -> string -> exn + bool.
Variable decode_payment : string -> exn + value.

Local Abbreviation splendorX402Fastify :=
  (Middleware.splendorX402Fastify RegExp_test decode_payment).

(** X6: when the plugin is registered with a pricing table, the table given
    to [splendorX402Fastify] plays no role: the hook prices by the
    registration's table alone. *)
Theorem splendorX402Fastify_registration_pricing (o opts : options)
    (table ignored : pricing_table) :
  opt_pricing opts = Some table ->
  NoDup (map fst table) ->
  splendorX402Fastify
    {| opt_rpcUrl := opt_rpcUrl o;
       opt_facilitatorUrl := opt_facilitatorUrl o;
       opt_payTo := opt_payTo o;
       opt_pricing := Some ignored;
       opt_defaultPrice := opt_defaultPrice o;
       opt_network := opt_network o;
       opt_chainId := opt_chainId o |} opts
  = splendorX402Fastify o opts /\
  (forall this,
     constructor (merge_options o opts) = inr this ->
     pricing this = table /\ spread (pricing this) (opt_pricing opts) = table).
Proof.
  intros Hp Hnd. split.
  - unfold Middleware.splendorX402Fastify, merge_options. cbn. rewrite Hp. reflexivity.
  - intros this Hc. unfold constructor, merge_options in Hc. cbn in Hc.
    rewrite Hp in Hc.
    destruct (match opt_payTo opts with Some x => Some x | None => opt_payTo o end)
      as [address|]; [|discriminate].
    destruct (address =? ""); [discriminate|].
    inversion Hc; subst this; clear Hc. cbn [pricing].
    split; [reflexivity|].
    rewrite Hp. unfold spread.
    rewrite (PricingFacts.fold_assign_fresh table []) by exact Hnd.
    apply fold_assign_present. apply lookup_own. exact Hnd.
Qed.

End Runtime.

Lemma splendorX402Fastify_registration_pricing_witness :
  exists this,
    constructor (merge_options Sample.readme_options
                   {| opt_rpcUrl := None; opt_facilitatorUrl := None; opt_payTo := None;
                      opt_pricing := Some [("/api/premium", PStr "0.5")];
                      opt_defaultPrice := None; opt_network := None; opt_chainId := None |})
      = inr this /\
    pricing this = [("/api/premium", PStr "0.5")] /\
    spread (pricing this) (Some [("/api/premium", PStr "0.5")]) = [("/api/premium", PStr "0.5")].
Proof.
  eexists. split; [reflexivity|].
  refine (proj2 (splendorX402Fastify_registration_pricing
                   Sample.RegExp_test Sample.decode_payment Sample.readme_options
                   {| opt_rpcUrl := None; opt_facilitatorUrl := None; opt_payTo := None;
                      opt_pricing := Some [("/api/premium", PStr "0.5")];
                      opt_defaultPrice := None; opt_network := None; opt_chainId := None |}
                   [("/api/premium", PStr "0.5")] [] eq_refl _) _ eq_refl).
  repeat constructor; cbn; intuition discriminate.
Defined.

End FactoryFacts.

(* ================================================================= *)
(** * How the facilitator calls fail *)

Module CallFacts.
Import JS Middleware AsyncFacts MiddlewareFacts.

Section Runtime.

Variable decode_payment : string -> exn + value.

Local Abbreviation verifyPayment := (Middleware.verifyPayment decode_payment).
Local Abbreviation settlePayment := (Middleware.settlePayment decode_payment).

Local Abbreviation failed message :=
  (VObj [("success", VBool false); ("error", VStr message)]).

(** A response with neither an error nor a result. *)
Lemma verifyPayment_no_result (srv : Async.facilitator) history this h amount c data :
  fst (Async.run srv history (verifyPayment this h amount)) = [c] ->
  srv history c = Async.Resolved data ->
  truthy (read data "error") = false ->
  nullish_value (read data "result") = true ->
  snd (Async.run srv history (verifyPayment this h amount)) = inr (failed "Verification failed").
Proof.
  intros Hcalls Hsrv Herr Hres.
  unfold Middleware.verifyPayment, Async.axios_post, Async.lift, get in *.
  destruct (decode_payment h) as [|payment]; [discriminate|].
  destruct (spldToWei amount) as [|wei]; [discriminate|].
  the_call Hcalls Hrun.
  rewrite Hsrv in Hrun. cbn -[read cannot_read] in Hrun.
  destruct (nullish_value data); cbn -[read cannot_read] in Hrun;
    [inversion Hrun; subst; reflexivity|].
  rewrite Herr in Hrun. cbn -[read cannot_read] in Hrun.
  rewrite Hres in Hrun. cbn -[read cannot_read] in Hrun.
  inversion Hrun; subst. reflexivity.
Qed.

Lemma settlePayment_no_result (srv : Async.facilitator) history this h amount c data :
  fst (Async.run srv history (settlePayment this h amount)) = [c] ->
  srv history c = Async.Resolved data ->
  truthy (read data "error") = false ->
  nullish_value (read data "result") = true ->
  snd (Async.run srv history (settlePayment this h amount)) = inr (failed "Settlement failed").
Proof.
  intros Hcalls Hsrv Herr Hres.
  unfold Middleware.settlePayment, Async.axios_post, Async.lift, get in *.
  destruct (decode_payment h) as [|payment]; [discriminate|].
  destruct (spldToWei amount) as [|wei]; [discriminate|].
  the_call Hcalls Hrun.
  rewrite Hsrv in Hrun. cbn -[read cannot_read] in Hrun.
  destruct (nullish_value data); cbn -[read cannot_read] in Hrun;
    [inversion Hrun; subst; reflexivity|].
  rewrite Herr in Hrun. cbn -[read cannot_read] in Hrun.
  rewrite Hres in Hrun. cbn -[read cannot_read] in Hrun.
  inversion Hrun; subst. reflexivity.
Qed.

(** An amount that does not convert: no call. *)
Lemma payment_bad_amount (srv : Async.facilitator) history this h amount e :
  spldToWei amount = inl e ->
  Async.run srv history (verifyPayment this h amount) = ([], inr (failed "Verification failed")) /\
  Async.run srv history (settlePayment this h amount) = ([], inr (failed "Settlement failed")).
Proof.
  intros Hw. unfold Middleware.verifyPayment, Middleware.settlePayment.
  destruct (decode_payment h); cbn; rewrite ?Hw; split; reflexivity.
Qed.

(** X7: [verifyPayment], [settlePayment] and [getSupported] never throw,
    whatever the header, the amount and the facilitator do; the first two
    always return an object. *)
Theorem facilitator_methods_never_throw (srv : Async.facilitator) history this h amount :
  (exists fields,
     snd (Async.run srv history (verifyPayment this h amount)) = inr (VObj fields)) /\
  (exists fields,
     snd (Async.run srv history (settlePayment this h amount)) = inr (VObj fields)) /\
  (exists v, snd (Async.run srv history (getSupported this)) = inr v).
Proof.
  repeat apply conj.
  - unfold Middleware.verifyPayment, Async.axios_post, Async.lift, get.
    crunch; eexists; reflexivity.
  - unfold Middleware.settlePayment, Async.axios_post, Async.lift, get.
    crunch; eexists; reflexivity.
  - apply getSupported_never_throws.
Qed.

(** X8: how [verifyPayment] fails.  A header that does not decode or an
    amount that does not convert: no call, 'Verification failed'.  A rejected
    call: 'Verification failed'.  An RPC-level error: the error's message.  A
    response with neither error nor result: 'Verification failed'.  In each
    case [success] is false. *)
Theorem verifyPayment_failure_modes (srv : Async.facilitator) history this h amount :
  ((exists e, decode_payment h = inl e) \/ (exists e, spldToWei amount = inl e) ->
   Async.run srv history (verifyPayment this h amount) =
     ([], inr (failed "Verification failed"))) /\
  (forall c,
     fst (Async.run srv history (verifyPayment this h amount)) = [c] ->
     (forall e, srv history c = Async.Rejected e ->
        snd (Async.run srv history (verifyPayment this h amount)) =
          inr (failed "Verification failed")) /\
     (forall data, srv history c = Async.Resolved data ->
        truthy (read data "error") = true ->
        snd (Async.run srv history (verifyPayment this h amount)) =
          inr (VObj [("success", VBool false);
                     ("error", read (read data "error") "message")])) /\
     (forall data, srv history c = Async.Resolved data ->
        truthy (read data "error") = false ->
        nullish_value (read data "result") = true ->
        snd (Async.run srv history (verifyPayment this h amount)) =
          inr (failed "Verification failed"))).
Proof.
  split.
  - intros [[e He] | [e He]].
    + exact (proj1 (payment_bad_header decode_payment srv history this h amount e He)).
    + exact (proj1 (payment_bad_amount srv history this h amount e He)).
  - intros c Hc. repeat apply conj.
    + intros e. apply verifyPayment_transport_failure. exact Hc.
    + intros data. apply verifyPayment_rpc_error. exact Hc.
    + intros data. apply verifyPayment_no_result. exact Hc.
Qed.

(** X9: how [settlePayment] fails: as [verifyPayment] does, with 'Settlement
    failed'. *)
Theorem settlePayment_failure_modes (srv : Async.facilitator) history this h amount :
  ((exists e, decode_payment h = inl e) \/ (exists e, spldToWei amount = inl e) ->
   Async.run srv history (settlePayment this h amount) =
     ([], inr (failed "Settlement failed"))) /\
  (forall c,
     fst (Async.run srv history (settlePayment this h amount)) = [c] ->
     (forall e, srv history c = Async.Rejected e ->
        snd (Async.run srv history (settlePayment this h amount)) =
          inr (failed "Settlement failed")) /\
     (forall data, srv history c = Async.Resolved data ->
        truthy (read data "error") = true ->
        snd (Async.run srv history (settlePayment this h amount)) =
          inr (VObj [("success", VBool false);
                     ("error", read (read data "error") "message")])) /\
     (forall data, srv history c = Async.Resolved data ->
        truthy (read data "error") = false ->
        nullish_value (read data "result") = true ->
        snd (Async.run srv history (settlePayment this h amount)) =
          inr (failed "Settlement failed"))).
Proof.
  split.
  - intros [[e He] | [e He]].
    + exact (proj2 (payment_bad_header decode_payment srv history this h amount e He)).
    + exact (proj2 (payment_bad_amount srv history this h amount e He)).
  - intros c Hc. repeat apply conj.
    + intros e. apply settlePayment_transport_failure. exact Hc.
    + intros data. apply settlePayment_rpc_error. exact Hc.
    + intros data. apply settlePayment_no_result. exact Hc.
Qed.

End Runtime.

(** X10: [getSupported] posts one [x402_supported] call without parameters
    and returns the [result] of the response, whatever else the response
    holds; it returns [{kinds: []}] when the call is rejected or the response
    has no body. *)
Theorem getSupported_cases (srv : Async.facilitator) history this :
  fst (Async.run srv history (getSupported this)) =
    [(facilitatorUrl this, rpc_request "x402_supported" [])] /\
  (forall data,
     srv history (facilitatorUrl this, rpc_request "x402_supported" []) = Async.Resolved data ->
     nullish_value data = false ->
     snd (Async.run srv history (getSupported this)) = inr (read data "result")) /\
  (forall data,
     srv history (facilitatorUrl this, rpc_request "x402_supported" []) = Async.Resolved data ->
     nullish_value data = true ->
     snd (Async.run srv history (getSupported this)) = inr (VObj [("kinds", VArr [])])) /\
  (forall e,
     srv history (facilitatorUrl this, rpc_request "x402_supported" []) = Async.Rejected e ->
     snd (Async.run srv history (getSupported this)) = inr (VObj [("kinds", VArr [])])).
Proof.
  unfold getSupported, Async.axios_post, Async.lift, get.
  cbn -[read cannot_read].
  destruct (srv history (facilitatorUrl this, rpc_request "x402_supported" []))
    as [data | e]; cbn -[read cannot_read].
  - destruct (nullish_value data) eqn:E; cbn -[read cannot_read];
      repeat split; intros; try congruence.
  - repeat split; intros; congruence.
Qed.

(** ** Against the sample facilitators *)

Local Abbreviation sample_verifyPayment :=
  (verifyPayment Sample.decode_payment Sample.readme_middleware Sample.x_payment_header).
Local Abbreviation sample_settlePayment :=
  (settlePayment Sample.decode_payment Sample.readme_middleware Sample.x_payment_header).

Lemma verifyPayment_failure_modes_witness :
  Async.run Sample.honest []
    (verifyPayment Sample.decode_payment Sample.readme_middleware "garbage" (PStr "0.0001")) =
    ([], inr (VObj [("success", VBool false); ("error", VStr "Verification failed")])) /\
  snd (Async.run Sample.offline [] (sample_verifyPayment (PStr "0.0001"))) =
    inr (VObj [("success", VBool false); ("error", VStr "Verification failed")]) /\
  snd (Async.run Sample.no_x402 [] (sample_verifyPayment (PStr "0.0001"))) =
    inr (VObj [("success", VBool false);
               ("error", VStr "the method x402_supported does not exist/is not available")]).
Proof.
  split; [|split].
  - apply (proj1 (verifyPayment_failure_modes Sample.decode_payment Sample.honest []
                    Sample.readme_middleware "garbage" (PStr "0.0001"))).
    left. eexists. reflexivity.
  - exact (proj1 (proj2 (verifyPayment_failure_modes Sample.decode_payment Sample.offline []
                           Sample.readme_middleware Sample.x_payment_header (PStr "0.0001"))
                    _ eq_refl) _ eq_refl).
  - exact (proj1 (proj2 (proj2 (verifyPayment_failure_modes Sample.decode_payment
                                  Sample.no_x402 [] Sample.readme_middleware
                                  Sample.x_payment_header (PStr "0.0001"))
                           _ eq_refl)) _ eq_refl eq_refl).
Defined.

Lemma settlePayment_failure_modes_witness :
  Async.run Sample.honest []
    (settlePayment Sample.decode_payment Sample.readme_middleware
       Sample.x_payment_header (PStr "abc")) =
    ([], inr (VObj [("success", VBool false); ("error", VStr "Settlement failed")])) /\
  snd (Async.run Sample.offline [] (sample_settlePayment (PStr "0.0001"))) =
    inr (VObj [("success", VBool false); ("error", VStr "Settlement failed")]) /\
  snd (Async.run Sample.rejecting [] (sample_settlePayment (PStr "0.0001"))) =
    inr (VObj [("success", VBool false); ("error", VStr "method not found")]).
Proof.
  split; [|split].
  - apply (proj1 (settlePayment_failure_modes Sample.decode_payment Sample.honest []
                    Sample.readme_middleware Sample.x_payment_header (PStr "abc"))).
    right. eexists. reflexivity.
  - exact (proj1 (proj2 (settlePayment_failure_modes Sample.decode_payment Sample.offline []
                           Sample.readme_middleware Sample.x_payment_header (PStr "0.0001"))
                    _ eq_refl) _ eq_refl).
  - exact (proj1 (proj2 (proj2 (settlePayment_failure_modes Sample.decode_payment
                                  Sample.rejecting [] Sample.readme_middleware
                                  Sample.x_payment_header (PStr "0.0001"))
                           _ eq_refl)) _ eq_refl eq_refl).
Defined.

Lemma getSupported_cases_witness :
  snd (Async.run Sample.honest [] (getSupported Sample.readme_middleware)) =
    inr (VObj [("kinds", VArr [VObj [("scheme", VStr "exact");
                                    ("network", VStr "splendor")]])]) /\
  snd (Async.run Sample.offline [] (getSupported Sample.readme_middleware)) =
    inr (VObj [("kinds", VArr [])]).
Proof.
  split.
  - exact (proj1 (proj2 (getSupported_cases Sample.honest [] Sample.readme_middleware))
             _ eq_refl eq_refl).
  - exact (proj2 (proj2 (proj2 (getSupported_cases Sample.offline [] Sample.readme_middleware)))
             _ eq_refl).
Defined.

End CallFacts.

(* ================================================================= *)
(** * The handlers on every request *)

Module HandlerFacts.
Import JS Middleware AsyncFacts MiddlewareFacts.

(** Splits a handler's run by the resolved price and the header. *)
Ltac handler_cases RegExp_test this op req :=
  let Hprice := fresh "Hprice" in
  let Hnn := fresh "Hnn" in
  let Hnz := fresh "Hnz" in
  let Hh := fresh "Hh" in
  destruct (Middleware.getPrice RegExp_test this (path req) (spread (pricing this) op))
    as [?e | ?price] eqn:Hprice;
  [ | destruct (nullish price) eqn:Hnn;
      [ | destruct (Number price =? 0)%float eqn:Hnz;
          [ | destruct (payment_header req) as [?h |] eqn:Hh ] ] ].

Section Runtime.

Variable RegExp_test : string -> string -> exn + bool.
Variable decode_payment : string -> exn + value.

Local Abbreviation verifyPayment := (Middleware.verifyPayment decode_payment).
Local Abbreviation settlePayment := (Middleware.settlePayment decode_payment).
Local Abbreviation getPrice := (Middleware.getPrice RegExp_test).
Local Abbreviation express := (Middleware.express RegExp_test decode_payment).
Local Abbreviation fastify := (Middleware.fastify RegExp_test decode_payment).

Local Abbreviation processing_error :=
  (Responded 500 (VObj [("error", VStr "Payment processing error")])).

(** The runs of the two handlers, case by case. *)
Lemma express_early (srv : Async.facilitator) this op req :
  Async.run srv [] (express this op req) =
  match getPrice this (path req) (spread (pricing this) op) with
  | inl _ => ([], inr processing_error)
  | inr price =>
      if nullish price then
        ([], inr (price_not_configured
                    "Add a pricing rule for this path or supply defaultPrice when initializing the middleware."))
      else if (Number price =? 0)%float then ([], inr NextFree)
      else
        match payment_header req with
        | None =>
            ([], match sendPaymentRequired this (path req) price undefined with
                 | inr rep => inr rep
                 | inl _ => inr processing_error
                 end)
        | Some h =>
            Async.run srv [] (express this op req)
        end
  end.
Proof.
  handler_cases RegExp_test this op req; try reflexivity;
    unfold Middleware.express;
    rewrite run_try_catch, run_bind, run_lift, Hprice; cbn [app];
    rewrite ?Hnn, ?Hnz, ?Hh, ?run_lift; try reflexivity.
  destruct (sendPaymentRequired this (path req) price undefined); reflexivity.
Qed.

Lemma fastify_early (srv : Async.facilitator) this op req :
  Async.run srv [] (fastify this op req) =
  match getPrice this (path req) (spread (pricing this) op) with
  | inl e => ([], inl e)
  | inr price =>
      if nullish price then
        ([], inr (price_not_configured
                    "Add a pricing rule for this path or supply defaultPrice when registering the plugin."))
      else if (Number price =? 0)%float then ([], inr NextFree)
      else
        match payment_header req with
        | None => ([], sendPaymentRequiredFastify this (path req) price undefined)
        | Some h => Async.run srv [] (fastify this op req)
        end
  end.
Proof.
  handler_cases RegExp_test this op req; try reflexivity;
    unfold Middleware.fastify;
    rewrite run_bind, run_lift, Hprice; cbn [app];
    rewrite ?Hnn, ?Hnz, ?Hh, ?run_lift; reflexivity.
Qed.

(** X11: the Express handler never throws: every run ends with a reply or
    with [next]. *)
Theorem express_never_throws (srv : Async.facilitator) this op req :
  exists rep, snd (Async.run srv [] (express this op req)) = inr rep.
Proof.
  rewrite express_early.
  handler_cases RegExp_test this op req; cbn [snd]; eauto.
  - destruct (verifyPayment_run decode_payment srv [] this h price)
      as (cv & isValid & Hv & Hobj & _).
    destruct (truthy (read isValid "success")) eqn:Hs.
    + destruct (settlePayment_run decode_payment srv cv this h price)
        as (cs & settlement & Hrun & Hsobj & _).
      rewrite (express_verification_passed RegExp_test decode_payment
                 srv this op req price h cv isValid cs settlement) by assumption.
      cbn [snd]. eauto.
    + rewrite (express_verification_failed RegExp_test decode_payment
                 srv this op req price h cv isValid) by assumption.
      cbn [snd]. destruct (sendPaymentRequired _ _ _ _); eauto.
  - destruct (sendPaymentRequired _ _ _ _); eauto.
Qed.

(** X12: the Fastify hook, which catches nothing, throws only when price
    resolution throws or the resolved price does not convert, and then it
    has made no call. *)
Theorem fastify_throws_on_price_only (srv : Async.facilitator) this op req e :
  snd (Async.run srv [] (fastify this op req)) = inl e ->
  fst (Async.run srv [] (fastify this op req)) = [] /\
  (getPrice this (path req) (spread (pricing this) op) = inl e \/
   exists price,
     getPrice this (path req) (spread (pricing this) op) = inr price /\
     spldToWei price = inl e).
Proof.
  rewrite fastify_early.
  handler_cases RegExp_test this op req; cbn [snd fst]; try discriminate.
  - intros H. inversion H; subst. split; [reflexivity|]. left. reflexivity.
  - destruct (verifyPayment_run decode_payment srv [] this h price)
      as (cv & isValid & Hv & Hobj & Hshape).
    destruct (truthy (read isValid "success")) eqn:Hs.
    + destruct (settlePayment_run decode_payment srv cv this h price)
        as (cs & settlement & Hrun & Hsobj & _).
      rewrite (fastify_verification_passed RegExp_test decode_payment
                 srv this op req price h cv isValid cs settlement) by assumption.
      discriminate.
    + rewrite (fastify_verification_failed RegExp_test decode_payment
                 srv this op req price h cv isValid) by assumption.
      cbn [snd fst]. unfold sendPaymentRequiredFastify.
      destruct (spldToWei price) as [e' | wei] eqn:Hw; [|discriminate].
      cbn [bind_exn]. intros H. inversion H; subst e'.
      destruct Hshape as [(-> & _) | (payment & r & _ & Hr & _)].
      * split; [reflexivity|]. right. exists price. split; [reflexivity | exact Hw].
      * destruct Hr as (_ & _ & _ & _ & _ & wei & Hwei & _). congruence.
  - unfold sendPaymentRequiredFastify.
    destruct (spldToWei price) as [e' | wei] eqn:Hw; [|discriminate].
    cbn [bind_exn]. intros H. inversion H; subst e'.
    split; [reflexivity|]. right. exists price. split; [reflexivity | exact Hw].
Qed.


(** What [verifyPayment] has seen when it reports success: the call it made
    and a response without error whose result is acceptable. *)
Lemma verifyPayment_accepts (srv : Async.facilitator) history this h amount calls v :
  Async.run srv history (verifyPayment this h amount) = (calls, inr v) ->
  truthy (read v "success") = true ->
  exists payment c data,
    decode_payment h = inr payment /\
    calls = [c] /\
    srv history c = Async.Resolved data /\
    truthy (read data "error") = false /\
    v = VObj [("success", read (read data "result") "isValid");
              ("error", read (read data "result") "invalidReason");
              ("payerAddress", read (read data "result") "payerAddress")].
Proof.
  unfold Middleware.verifyPayment, Async.axios_post, Async.lift, get.
  crunch; intros Hrun Hs; inversion Hrun; subst; clear Hrun;
    try discriminate Hs.
  eexists _, _, _. repeat split; eassumption.
Qed.

Lemma settlePayment_accepts (srv : Async.facilitator) history this h amount calls v :
  Async.run srv history (settlePayment this h amount) = (calls, inr v) ->
  truthy (read v "success") = true ->
  exists payment c data,
    decode_payment h = inr payment /\
    calls = [c] /\
    srv history c = Async.Resolved data /\
    truthy (read data "error") = false /\
    v = VObj [("success", read (read data "result") "success");
              ("error", read (read data "result") "error");
              ("txHash", read (read data "result") "txHash")].
Proof.
  unfold Middleware.settlePayment, Async.axios_post, Async.lift, get.
  crunch; intros Hrun Hs; inversion Hrun; subst; clear Hrun;
    try discriminate Hs.
  eexists _, _, _. repeat split; eassumption.
Qed.

(** [settlePayment] posts what [verifyPayment] posts, to the same URL and
    with the same parameters, under another method. *)
Lemma posts_parity (srv srv' : Async.facilitator) history history' this h amount :
  map fst (fst (Async.run srv' history' (settlePayment this h amount))) =
    map fst (fst (Async.run srv history (verifyPayment this h amount))) /\
  map params_of (fst (Async.run srv' history' (settlePayment this h amount))) =
    map params_of (fst (Async.run srv history (verifyPayment this h amount))) /\
  Forall (fun c => fst c = facilitatorUrl this /\ method_of c = VStr "x402_verify")
    (fst (Async.run srv history (verifyPayment this h amount))) /\
  Forall (fun c => fst c = facilitatorUrl this /\ method_of c = VStr "x402_settle")
    (fst (Async.run srv' history' (settlePayment this h amount))) /\
  (length (fst (Async.run srv history (verifyPayment this h amount))) <= 1)%nat.
Proof.
  unfold Middleware.verifyPayment, Middleware.settlePayment, Async.axios_post,
    Async.lift, get.
  crunch; repeat split; repeat constructor.
Qed.

(** X13: the Express handler attaches a payment to the request and calls
    [next] only after two calls, [x402_verify] then [x402_settle] with the
    same parameters, both answered without error, the first with a truthy
    [isValid] and the second with a truthy [success]; the transaction hash
    and the payer it attaches are those of the two results. *)
Theorem express_access_requires_settlement
    (srv : Async.facilitator) this op req x402 x_payment_response :
  snd (Async.run srv [] (express this op req)) = inr (NextPaid x402 x_payment_response) ->
  exists price h payment cv cs dataV dataS,
    getPrice this (path req) (spread (pricing this) op) = inr price /\
    payment_header req = Some h /\
    decode_payment h = inr payment /\
    fst (Async.run srv [] (express this op req)) = [cv; cs] /\
    method_of cv = VStr "x402_verify" /\
    method_of cs = VStr "x402_settle" /\
    params_of cs = params_of cv /\
    srv [] cv = Async.Resolved dataV /\
    truthy (read dataV "error") = false /\
    truthy (read (read dataV "result") "isValid") = true /\
    srv [cv] cs = Async.Resolved dataS /\
    truthy (read dataS "error") = false /\
    truthy (read (read dataS "result") "success") = true /\
    x402 = VObj [("paid", VBool true);
                 ("amount", VPrim price);
                 ("txHash", read (read dataS "result") "txHash");
                 ("payer", read (read dataV "result") "payerAddress")] /\
    x_payment_response = VObj [("success", VBool true);
                               ("txHash", read (read dataS "result") "txHash");
                               ("networkId", VStr "splendor")].
Proof.
  rewrite express_early.
  handler_cases RegExp_test this op req; cbn [snd]; try discriminate.
  2: { destruct (sendPaymentRequired this (path req) price undefined) as [|rep] eqn:Hsend;
         [discriminate|].
       destruct (sendPaymentRequired_challenge _ _ _ _ _ Hsend) as (r & -> & _).
       discriminate. }
  destruct (verifyPayment_run decode_payment srv [] this h price)
    as (cv & isValid & Hv & Hobj & _).
  destruct (truthy (read isValid "success")) eqn:Hs.
  - destruct (settlePayment_run decode_payment srv cv this h price)
      as (cs & settlement & Hrun & Hsobj & _).
    rewrite (express_verification_passed RegExp_test decode_payment
               srv this op req price h cv isValid cs settlement) by assumption.
    cbn [snd fst].
    destruct (truthy (read settlement "success")) eqn:Hss; [|discriminate].
    intros H. inversion H; subst x402 x_payment_response; clear H.
    destruct (verifyPayment_accepts srv [] this h price cv isValid Hv Hs)
      as (payment & c1 & dataV & Hd & -> & HsrvV & HerrV & ->).
    destruct (settlePayment_accepts srv [c1] this h price cs settlement Hrun Hss)
      as (payment' & c2 & dataS & _ & -> & HsrvS & HerrS & ->).
    destruct (posts_parity srv srv [] [c1] this h price)
      as (_ & Hparams & Hm1 & Hm2 & _).
    rewrite Hv, Hrun in *. cbn [fst map] in *.
    inversion Hparams. inversion Hm1 as [| ? ? [_ Hmv] _]. inversion Hm2 as [| ? ? [_ Hms] _].
    subst.
    exists price, h, payment, c1, c2, dataV, dataS.
    cbn in Hs, Hss.
    repeat split; try assumption; reflexivity.
  - rewrite (express_verification_failed RegExp_test decode_payment
               srv this op req price h cv isValid) by assumption.
    cbn [snd].
    destruct (sendPaymentRequired this (path req) price (read isValid "error"))
      as [|rep] eqn:Hsend; [discriminate|].
    destruct (sendPaymentRequired_challenge _ _ _ _ _ Hsend) as (r & -> & _).
    discriminate.
Qed.


(** The calls of a handler's run: none, or those of [verifyPayment] followed,
    when it reports success, by those of [settlePayment]. *)
Lemma express_calls_structure (srv : Async.facilitator) this op req :
  fst (Async.run srv [] (express this op req)) = [] \/
  exists price h cv isValid,
    getPrice this (path req) (spread (pricing this) op) = inr price /\
    payment_header req = Some h /\
    Async.run srv [] (verifyPayment this h price) = (cv, inr isValid) /\
    ((truthy (read isValid "success") = false /\
      fst (Async.run srv [] (express this op req)) = cv) \/
     (truthy (read isValid "success") = true /\
      fst (Async.run srv [] (express this op req)) =
        (cv ++ fst (Async.run srv cv (settlePayment this h price)))%list)).
Proof.
  rewrite express_early.
  handler_cases RegExp_test this op req; cbn [fst]; try (left; reflexivity).
  right.
  destruct (verifyPayment_run decode_payment srv [] this h price)
    as (cv & isValid & Hv & Hobj & _).
  exists price, h, cv, isValid. repeat split; try assumption.
  destruct (truthy (read isValid "success")) eqn:Hs.
  - destruct (settlePayment_run decode_payment srv cv this h price)
      as (cs & settlement & Hrun & Hsobj & _).
    rewrite (express_verification_passed RegExp_test decode_payment
               srv this op req price h cv isValid cs settlement) by assumption.
    rewrite Hrun. right. split; reflexivity.
  - rewrite (express_verification_failed RegExp_test decode_payment
               srv this op req price h cv isValid) by assumption.
    left. split; reflexivity.
Qed.

Lemma fastify_calls_structure (srv : Async.facilitator) this op req :
  fst (Async.run srv [] (fastify this op req)) = [] \/
  exists price h cv isValid,
    getPrice this (path req) (spread (pricing this) op) = inr price /\
    payment_header req = Some h /\
    Async.run srv [] (verifyPayment this h price) = (cv, inr isValid) /\
    ((truthy (read isValid "success") = false /\
      fst (Async.run srv [] (fastify this op req)) = cv) \/
     (truthy (read isValid "success") = true /\
      fst (Async.run srv [] (fastify this op req)) =
        (cv ++ fst (Async.run srv cv (settlePayment this h price)))%list)).
Proof.
  rewrite fastify_early.
  handler_cases RegExp_test this op req; cbn [fst]; try (left; reflexivity).
  right.
  destruct (verifyPayment_run decode_payment srv [] this h price)
    as (cv & isValid & Hv & Hobj & _).
  exists price, h, cv, isValid. repeat split; try assumption.
  destruct (truthy (read isValid "success")) eqn:Hs.
  - destruct (settlePayment_run decode_payment srv cv this h price)
      as (cs & settlement & Hrun & Hsobj & _).
    rewrite (fastify_verification_passed RegExp_test decode_payment
               srv this op req price h cv isValid cs settlement) by assumption.
    rewrite Hrun. right. split; reflexivity.
  - rewrite (fastify_verification_failed RegExp_test decode_payment
               srv this op req price h cv isValid) by assumption.
    left. split; reflexivity.
Qed.

Lemma calls_in_order_structure (srv : Async.facilitator) this price h cv isValid calls :
  Async.run srv [] (verifyPayment this h price) = (cv, inr isValid) ->
  (truthy (read isValid "success") = false /\ calls = cv) \/
  (truthy (read isValid "success") = true /\
   calls = (cv ++ fst (Async.run srv cv (settlePayment this h price)))%list) ->
  calls_in_order this calls.
Proof.
  intros Hv Hcases. unfold calls_in_order.
  destruct (posts_parity srv srv [] cv this h price)
    as (Hurls & Hparams & Hm1 & Hm2 & Hlen).
  rewrite Hv in *. cbn [fst] in *.
  destruct Hcases as [(_ & ->) | (Hs & ->)].
  - split; [eapply Forall_impl; [|exact Hm1]; cbn; tauto|].
    destruct cv as [| c1 [| c2 rest]]; [left; reflexivity | | cbn in Hlen; lia].
    right. left. exists c1. split; [reflexivity|].
    inversion Hm1 as [| ? ? [_ Hm] _]. exact Hm.
  - destruct (verifyPayment_accepts srv [] this h price cv isValid Hv Hs)
      as (payment & c1 & dataV & _ & -> & _).
    destruct (fst (Async.run srv [c1] (settlePayment this h price)))
      as [| c2 [| c3 rest]]; cbn [map] in Hurls; try discriminate Hurls.
    cbn [map] in Hparams. inversion Hparams as [Hp].
    inversion Hm1 as [| ? ? [Hu1 Hmv] _]. inversion Hm2 as [| ? ? [Hu2 Hms] _].
    split; [repeat constructor; assumption|].
    right. right. exists c1, c2. repeat split; assumption.
Qed.

(** X14: whatever the request and the facilitator, a handler makes no call,
    or one [x402_verify] call, or one [x402_verify] call followed by one
    [x402_settle] call with the same parameters, all to [facilitatorUrl]. *)
Theorem handler_calls_in_order (srv : Async.facilitator) this op req :
  calls_in_order this (fst (Async.run srv [] (express this op req))) /\
  calls_in_order this (fst (Async.run srv [] (fastify this op req))).
Proof.
  split.
  - destruct (express_calls_structure srv this op req)
      as [-> | (price & h & cv & isValid & _ & _ & Hv & Hcases)].
    + split; [constructor | left; reflexivity].
    + exact (calls_in_order_structure srv this price h cv isValid _ Hv Hcases).
  - destruct (fastify_calls_structure srv this op req)
      as [-> | (price & h & cv & isValid & _ & _ & Hv & Hcases)].
    + split; [constructor | left; reflexivity].
    + exact (calls_in_order_structure srv this price h cv isValid _ Hv Hcases).
Qed.



(** X16: the Fastify hook on a priced endpoint with a payment header:
    verification first, settlement only when it reported valid; a failed
    settlement is answered 402 'Payment settlement failed' with the reason,
    a failed verification 402 with the requirements and the reason. *)
Theorem fastify_verifies_before_settling
    (srv : Async.facilitator) this op req price h :
  getPrice this (path req) (spread (pricing this) op) = inr price ->
  nullish price = false ->
  PrimFloat.is_nan (Number price) = false ->
  (Number price =? 0)%float = false ->
  payment_header req = Some h ->
  exists cv isValid cs,
    Async.run srv [] (verifyPayment this h price) = (cv, inr isValid) /\
    fst (Async.run srv [] (fastify this op req)) = (cv ++ cs)%list /\
    Forall (fun c => method_of c = VStr "x402_verify") cv /\
    Forall (fun c => method_of c = VStr "x402_settle") cs /\
    (forall payment, decode_payment h = inr payment ->
       exists r, cv = [(facilitatorUrl this, rpc_request "x402_verify" [r; payment])]) /\
    (truthy (read isValid "success") = true ->
       exists payment r settlement,
         decode_payment h = inr payment /\
         cs = [(facilitatorUrl this, rpc_request "x402_settle" [r; payment])] /\
         Async.run srv cv (settlePayment this h price) = (cs, inr settlement) /\
         (truthy (read settlement "success") = false ->
          snd (Async.run srv [] (fastify this op req)) =
            inr (Responded 402
                   (VObj [("error", VStr "Payment settlement failed");
                          ("details", read settlement "error")])))) /\
    (truthy (read isValid "success") = false ->
       cs = [] /\
       exists r,
         requirements_ok this price r /\
         read r "resource" = VStr (path req) /\
         snd (Async.run srv [] (fastify this op req)) =
           inr (Responded 402
                  (VObj [("x402Version", VNum 1%float);
                         ("accepts", VArr [r]);
                         ("error", default_null (read isValid "error"))]))).
Proof.
  intros Hprice Hnn Hnan Hnz Hh.
  destruct (spldToWei_number price Hnn Hnan) as [wei Hw].
  destruct (verifyPayment_run decode_payment srv [] this h price)
    as (cv & isValid & Hv & Hobj & Hshape).
  assert (Hcv : Forall (fun c => method_of c = VStr "x402_verify") cv).
  { destruct Hshape as [(-> & _) | (payment & r & _ & _ & ->)]; repeat constructor. }
  assert (Hdec : forall payment, decode_payment h = inr payment ->
            exists r, cv = [(facilitatorUrl this, rpc_request "x402_verify" [r; payment])]).
  { intros payment Hd.
    destruct Hshape as [(_ & _ & [[e He] | [e He]]) | (payment' & r & Hd' & _ & ->)];
      try congruence.
    exists r. congruence. }
  destruct (truthy (read isValid "success")) eqn:Hs.
  - destruct Hshape as [(_ & -> & _) | (payment & r & Hd & _ & Hcalls)];
      [discriminate Hs|].
    destruct (settlePayment_run decode_payment srv cv this h price)
      as (cs & settlement & Hrun & Hsobj & Hsshape).
    destruct Hsshape as [(_ & _ & [[e He] | [e He]]) | (payment' & r' & Hd' & _ & Hcs)];
      try congruence.
    exists cv, isValid, cs.
    rewrite (fastify_verification_passed RegExp_test decode_payment
               srv this op req price h cv isValid cs settlement) by assumption.
    cbn [fst snd].
    split; [assumption|]. split; [reflexivity|]. split; [assumption|].
    split; [subst cs; repeat constructor|]. split; [assumption|].
    split; [|congruence].
    intros _. exists payment', r', settlement.
    split; [assumption|]. split; [assumption|]. split; [assumption|].
    intros ->. reflexivity.
  - exists cv, isValid, [].
    rewrite (fastify_verification_failed RegExp_test decode_payment
               srv this op req price h cv isValid) by assumption.
    destruct (sendPaymentRequired_ok this (path req) price (read isValid "error") wei Hw)
      as (r & Hr & Hres & Hsend).
    change (sendPaymentRequiredFastify this (path req) price (read isValid "error"))
      with (sendPaymentRequired this (path req) price (read isValid "error")).
    rewrite Hsend. cbn [fst snd]. rewrite app_nil_r.
    split; [assumption|]. split; [reflexivity|]. split; [assumption|].
    split; [constructor|]. split; [assumption|].
    split; [congruence|].
    intros _. split; [reflexivity|].
    exists r. split; [exact Hr | split; [exact Hres | reflexivity]].
Qed.


(** X18: the Fastify hook attaches a payment to the request and lets it
    through only after two calls, [x402_verify] then [x402_settle] with the
    same parameters, both answered without error, the first with a truthy
    [isValid] and the second with a truthy [success]; the transaction hash
    and the payer it attaches are those of the two results. *)
Theorem fastify_access_requires_settlement
    (srv : Async.facilitator) this op req x402 x_payment_response :
  snd (Async.run srv [] (fastify this op req)) = inr (NextPaid x402 x_payment_response) ->
  exists price h payment cv cs dataV dataS,
    getPrice this (path req) (spread (pricing this) op) = inr price /\
    payment_header req = Some h /\
    decode_payment h = inr payment /\
    fst (Async.run srv [] (fastify this op req)) = [cv; cs] /\
    method_of cv = VStr "x402_verify" /\
    method_of cs = VStr "x402_settle" /\
    params_of cs = params_of cv /\
    srv [] cv = Async.Resolved dataV /\
    truthy (read dataV "error") = false /\
    truthy (read (read dataV "result") "isValid") = true /\
    srv [cv] cs = Async.Resolved dataS /\
    truthy (read dataS "error") = false /\
    truthy (read (read dataS "result") "success") = true /\
    x402 = VObj [("paid", VBool true);
                 ("amount", VPrim price);
                 ("txHash", read (read dataS "result") "txHash");
                 ("payer", read (read dataV "result") "payerAddress")] /\
    x_payment_response = VObj [("success", VBool true);
                               ("txHash", read (read dataS "result") "txHash");
                               ("networkId", VStr "splendor")].
Proof.
  rewrite fastify_early.
  handler_cases RegExp_test this op req; cbn [snd]; try discriminate.
  2: { intros Hsend.
       destruct (sendPaymentRequiredFastify_challenge _ _ _ _ _ Hsend) as (r & Hrep & _).
       discriminate. }
  destruct (verifyPayment_run decode_payment srv [] this h price)
    as (cv & isValid & Hv & Hobj & _).
  destruct (truthy (read isValid "success")) eqn:Hs.
  - destruct (settlePayment_run decode_payment srv cv this h price)
      as (cs & settlement & Hrun & Hsobj & _).
    rewrite (fastify_verification_passed RegExp_test decode_payment
               srv this op req price h cv isValid cs settlement) by assumption.
    cbn [snd fst].
    destruct (truthy (read settlement "success")) eqn:Hss; [|discriminate].
    intros H. inversion H; subst x402 x_payment_response; clear H.
    destruct (verifyPayment_accepts srv [] this h price cv isValid Hv Hs)
      as (payment & c1 & dataV & Hd & -> & HsrvV & HerrV & ->).
    destruct (settlePayment_accepts srv [c1] this h price cs settlement Hrun Hss)
      as (payment' & c2 & dataS & _ & -> & HsrvS & HerrS & ->).
    destruct (posts_parity srv srv [] [c1] this h price)
      as (_ & Hparams & Hm1 & Hm2 & _).
    rewrite Hv, Hrun in *. cbn [fst map] in *.
    inversion Hparams. inversion Hm1 as [| ? ? [_ Hmv] _]. inversion Hm2 as [| ? ? [_ Hms] _].
    subst.
    exists price, h, payment, c1, c2, dataV, dataS.
    cbn in Hs, Hss.
    repeat split; try assumption; reflexivity.
  - rewrite (fastify_verification_failed RegExp_test decode_payment
               srv this op req price h cv isValid) by assumption.
    cbn [snd]. intros Hsend.
    destruct (sendPaymentRequiredFastify_challenge _ _ _ _ _ Hsend) as (r & Hrep & _).
    discriminate.
Qed.

(** The requirements [verifyPayment] and [settlePayment] post name the same
    resource whatever the request. *)
Lemma posted_resource (srv : Async.facilitator) history this h amount c :
  In c (fst (Async.run srv history (verifyPayment this h amount))) \/
  In c (fst (Async.run srv history (settlePayment this h amount))) ->
  exists r payment,
    params_of c = VArr [r; payment] /\
    read r "resource" = VStr "api-access" /\
    read r "description" = VStr "API access payment" /\
    read r "mimeType" = VStr "application/json".
Proof.
  unfold Middleware.verifyPayment, Middleware.settlePayment, Async.axios_post,
    Async.lift, get.
  crunch; intros [Hin | Hin]; cbn in Hin;
    repeat match type of Hin with
           | _ \/ _ => destruct Hin as [Hin | Hin]
           | False => destruct Hin
           end;
    subst c; eexists _, _; repeat split.
Qed.

(** X19: the requirements posted to the facilitator do not name the
    requested path: their resource is 'api-access' for every request. *)
Theorem posted_requirements_ignore_the_path (srv : Async.facilitator) this op req c :
  In c (fst (Async.run srv [] (express this op req))) \/
  In c (fst (Async.run srv [] (fastify this op req))) ->
  exists r payment,
    params_of c = VArr [r; payment] /\
    read r "resource" = VStr "api-access" /\
    read r "description" = VStr "API access payment" /\
    read r "mimeType" = VStr "application/json".
Proof.
  intros Hin.
  assert (Hcalls : exists price h cv,
            In c (cv ++ fst (Async.run srv cv (settlePayment this h price)))%list /\
            cv = fst (Async.run srv [] (verifyPayment this h price))).
  { destruct Hin as [Hin | Hin];
      [destruct (express_calls_structure srv this op req)
         as [Hnil | (price & h & cv & isValid & _ & _ & Hv & Hcases)]
      | destruct (fastify_calls_structure srv this op req)
         as [Hnil | (price & h & cv & isValid & _ & _ & Hv & Hcases)]];
      try (rewrite Hnil in Hin; destruct Hin);
      exists price, h, cv; (split; [|rewrite Hv; reflexivity]);
      destruct Hcases as [(_ & Hc) | (_ & Hc)]; rewrite Hc in Hin;
      try exact Hin; apply in_or_app; left; exact Hin. }
  destruct Hcalls as (price & h & cv & Hc & ->).
  apply in_app_or in Hc.
  destruct Hc as [Hc | Hc]; eapply posted_resource; [left | right]; exact Hc.
Qed.

End Runtime.

(** ** Against the sample facilitators *)

Local Abbreviation sample_express :=
  (express Sample.RegExp_test Sample.decode_payment Sample.readme_middleware None).
Local Abbreviation sample_fastify :=
  (fastify Sample.RegExp_test Sample.decode_payment Sample.readme_middleware None).

Lemma fastify_throws_on_price_only_witness :
  fst (Async.run Sample.honest []
         (fastify Sample.RegExp_test Sample.decode_payment Sample.readme_middleware
            (Some [("/x", PStr "abc")]) (Sample.paid_request "/x"))) = [] /\
  (getPrice Sample.RegExp_test Sample.readme_middleware "/x"
     (spread (pricing Sample.readme_middleware) (Some [("/x", PStr "abc")]))
     = inl (Error "Invalid SPLD amount: abc") \/
   exists price,
     getPrice Sample.RegExp_test Sample.readme_middleware "/x"
       (spread (pricing Sample.readme_middleware) (Some [("/x", PStr "abc")])) = inr price /\
     spldToWei price = inl (Error "Invalid SPLD amount: abc")).
Proof.
  exact (fastify_throws_on_price_only Sample.RegExp_test Sample.decode_payment
           Sample.honest Sample.readme_middleware (Some [("/x", PStr "abc")])
           (Sample.paid_request "/x") _ eq_refl).
Defined.


Lemma express_access_requires_settlement_witness :
  exists cv cs,
    fst (Async.run Sample.honest [] (sample_express (Sample.paid_request "/api/premium")))
      = [cv; cs] /\
    method_of cv = VStr "x402_verify" /\
    method_of cs = VStr "x402_settle" /\
    params_of cs = params_of cv.
Proof.
  destruct (express_access_requires_settlement Sample.RegExp_test Sample.decode_payment
              Sample.honest Sample.readme_middleware None
              (Sample.paid_request "/api/premium") _ _ eq_refl)
    as (price & h & payment & cv & cs & dataV & dataS & _ & _ & _ & Hc & Hv & Hs & Hp & _).
  exists cv, cs. repeat split; assumption.
Defined.

Lemma fastify_access_requires_settlement_witness :
  exists cv cs,
    fst (Async.run Sample.honest [] (sample_fastify (Sample.paid_request "/api/premium")))
      = [cv; cs] /\
    method_of cv = VStr "x402_verify" /\
    method_of cs = VStr "x402_settle" /\
    params_of cs = params_of cv.
Proof.
  destruct (fastify_access_requires_settlement Sample.RegExp_test Sample.decode_payment
              Sample.honest Sample.readme_middleware None
              (Sample.paid_request "/api/premium") _ _ eq_refl)
    as (price & h & payment & cv & cs & dataV & dataS & _ & _ & _ & Hc & Hv & Hs & Hp & _).
  exists cv, cs. repeat split; assumption.
Defined.

Lemma fastify_verifies_before_settling_witness :
  exists cv isValid cs,
    Async.run Sample.broke []
      (verifyPayment Sample.decode_payment Sample.readme_middleware
         Sample.x_payment_header (PStr "0.0001")) = (cv, inr isValid) /\
    fst (Async.run Sample.broke [] (sample_fastify (Sample.paid_request "/api/premium")))
      = (cv ++ cs)%list /\
    Forall (fun c => method_of c = VStr "x402_verify") cv /\
    Forall (fun c => method_of c = VStr "x402_settle") cs.
Proof.
  destruct (fastify_verifies_before_settling Sample.RegExp_test Sample.decode_payment
              Sample.broke Sample.readme_middleware None
              (Sample.paid_request "/api/premium") (PStr "0.0001") Sample.x_payment_header
              eq_refl eq_refl eq_refl eq_refl eq_refl)
    as (cv & isValid & cs & Hv & Hcalls & Hcv & Hcs & _).
  exists cv, isValid, cs. repeat split; assumption.
Defined.


Lemma posted_requirements_ignore_the_path_witness :
  exists c r payment,
    In c (fst (Async.run Sample.honest []
                 (sample_express (Sample.paid_request "/api/data/blocks")))) /\
    params_of c = VArr [r; payment] /\
    read r "resource" = VStr "api-access".
Proof.
  edestruct (posted_requirements_ignore_the_path Sample.RegExp_test Sample.decode_payment
               Sample.honest Sample.readme_middleware None
               (Sample.paid_request "/api/data/blocks"))
    as (r & payment & Hp & Hr & _).
  { left. left. reflexivity. }
  eexists _, r, payment. split; [left; reflexivity|]. split; assumption.
Defined.

End HandlerFacts.

(* ================================================================= *)
(** * The encoder on a range of prices *)

Module EncoderFacts.
Import JS Middleware.

Local Open Scope Z_scope.

(** X20: for the prices 0.0001, 0.0002, ... up to 0.0100 SPLD, written with
    four decimals, [spldToWei] encodes the exact number of smallest units
    but for ten of them, which binary floating point puts one unit below
    (0.0021, 0.0042, 0.0045, 0.0084, 0.0087, 0.0090) or one above (0.0079,
    0.0082, 0.0085, 0.0088). *)
Theorem spldToWei_ten_thousandths (k : nat) :
  (1 <= k <= 100)%nat ->
  exists wei : Z,
    spldToWei (PStr (Sample.four_decimals k)) = inr (HexString.of_Z wei) /\
    (wei = Z.of_nat k * 10 ^ 14 - 1 <-> In k [21; 42; 45; 84; 87; 90]%nat) /\
    (wei = Z.of_nat k * 10 ^ 14 + 1 <-> In k [79; 82; 85; 88]%nat) /\
    (wei = Z.of_nat k * 10 ^ 14 <->
     ~ In k [21; 42; 45; 79; 82; 84; 85; 87; 88; 90]%nat).
Proof.
  intros Hk.
  pose (member := fun (k : nat) (l : list nat) => existsb (Nat.eqb k) l).
  assert (Hmember : forall l, member k l = true <-> In k l).
  { intros l. unfold member. rewrite existsb_exists. split.
    - intros (x & Hx & Hxk). apply Nat.eqb_eq in Hxk. subst x. exact Hx.
    - intros Hin. exists k. split; [exact Hin | apply Nat.eqb_refl]. }
  pose (check := fun k : nat =>
    match spldToWei (PStr (Sample.four_decimals k)) with
    | inr s =>
        let wei := HexString.to_Z s in
        (s =? HexString.of_Z wei)%string
        && Bool.eqb (wei =? Z.of_nat k * 10 ^ 14 - 1) (member k [21; 42; 45; 84; 87; 90]%nat)
        && Bool.eqb (wei =? Z.of_nat k * 10 ^ 14 + 1) (member k [79; 82; 85; 88]%nat)
        && Bool.eqb (wei =? Z.of_nat k * 10 ^ 14)
             (negb (member k [21; 42; 45; 79; 82; 84; 85; 87; 88; 90]%nat))
    | inl _ => false
    end).
  assert (Hall : forallb check (seq 1 100) = true) by (vm_compute; reflexivity).
  rewrite forallb_forall in Hall.
  assert (Hc : check k = true) by (apply Hall, in_seq; lia).
  unfold check in Hc. clear check Hall.
  destruct (spldToWei (PStr (Sample.four_decimals k))) as [|s]; [discriminate|].
  cbv zeta in Hc.
  apply andb_prop in Hc. destruct Hc as [Hc Hexact].
  apply andb_prop in Hc. destruct Hc as [Hc Hplus].
  apply andb_prop in Hc. destruct Hc as [Henc Hminus].
  apply String.eqb_eq in Henc.
  apply Bool.eqb_prop in Hexact, Hplus, Hminus.
  exists (HexString.to_Z s). split; [congruence|].
  rewrite <- !Z.eqb_eq, Hminus, Hplus, Hexact, negb_true_iff, <- not_true_iff_false.
  rewrite !Hmember. tauto.
Qed.

Lemma spldToWei_ten_thousandths_witness :
  exists wei : Z,
    spldToWei (PStr "0.0021") = inr (HexString.of_Z wei) /\
    wei = 2100000000000000 - 1.
Proof.
  destruct (spldToWei_ten_thousandths 21 ltac:(lia)) as (wei & Henc & Hminus & _).
  exists wei. split; [exact Henc|]. apply Hminus. cbn. tauto.
Defined.

End EncoderFacts.
